(** * BigQuery MCP server: dispatch, tool execution and SSE framing

    A shallow embedding of [mcp_sse_server.py].  JSON values are an
    inductive type, the handlers are written in a state-and-exception
    monad, the warehouse client and the Unicode-aware primitives of the
    Python runtime are interfaces (records of operations), and the
    [try ... except Exception] blocks of the source are [try_except]. *)

From Stdlib Require Import String Ascii List ZArith Bool Lia.
From Stdlib Require Import DecimalString.
From Stdlib Require Import PrimFloat.
Import ListNotations.
Local Open Scope list_scope.
Local Open Scope string_scope.
Set Warnings "-register-all".

(** ** Python values *)

(** The values [json.loads] produces and the handlers build.  A dict is
    an association list in insertion order; a [str] is held as its
    UTF-8 text. *)
Inductive pyval : Type :=
| PNone
| PBool (b : bool)
| PInt (z : Z)
| PFloat (f : float)
| PStr (s : string)
| PList (l : list pyval)
| PDict (d : list (string * pyval)).

(** The newline character of the f-strings. *)
Definition nl : string := String "010"%char EmptyString.

(** [sep.join(parts)]. *)
Fixpoint join (sep : string) (parts : list string) : string :=
  match parts with
  | [] => ""
  | [p] => p
  | p :: rest => p ++ sep ++ join sep rest
  end.

(** [str(n)] for an [int]. *)
Definition int_str (z : Z) : string := NilZero.string_of_int (Z.to_int z).

(** [needle in hay] on strings. *)
Fixpoint str_contains (needle hay : string) : bool :=
  String.prefix needle hay
  || match hay with
     | EmptyString => false
     | String _ rest => str_contains needle rest
     end.

(** [d.get(key)] on the association list: the first binding of the key. *)
Fixpoint dict_lookup (d : list (string * pyval)) (key : string) : option pyval :=
  match d with
  | [] => None
  | (k, v) :: rest => if String.eqb k key then Some v else dict_lookup rest key
  end.

(** [d.get(key, default)] on the association list. *)
Definition dict_get (d : list (string * pyval)) (key : string) (default : pyval) : pyval :=
  match dict_lookup d key with Some x => x | None => default end.

(** [type(v).__name__]. *)
Definition type_name (v : pyval) : string :=
  match v with
  | PNone => "NoneType"
  | PBool _ => "bool"
  | PInt _ => "int"
  | PFloat _ => "float"
  | PStr _ => "str"
  | PList _ => "list"
  | PDict _ => "dict"
  end.

(** [bool(v)]: the truth value Python's [if] and [and] use. *)
Definition py_truthy (v : pyval) : bool :=
  match v with
  | PNone => false
  | PBool b => b
  | PInt z => negb (Z.eqb z 0)
  | PFloat f => negb (PrimFloat.eqb f PrimFloat.zero)
  | PStr s => negb (String.eqb s "")
  | PList l => match l with [] => false | _ => true end
  | PDict d => match d with [] => false | _ => true end
  end.

(** [v == s] for a string literal [s]: only an equal [str] compares equal. *)
Definition py_eq_str (v : pyval) (s : string) : bool :=
  match v with
  | PStr t => String.eqb t s
  | _ => false
  end.

(** ** Exceptions and outcomes *)

(** An instance of [Exception]: its class name and its [str(e)]. *)
Record exn : Type := Exn { exn_class : string; exn_str : string }.

Inductive outcome (A : Type) : Type :=
| Ok (a : A)
| Raise (e : exn).
Arguments Ok {A} a.
Arguments Raise {A} e.

(** The [AttributeError] of a method call on a value that lacks it. *)
Definition attribute_error (v : pyval) (attr : string) : exn :=
  Exn "AttributeError"
      ("'" ++ type_name v ++ "' object has no attribute '" ++ attr ++ "'").

(** ** The Python runtime *)

(** Library primitives whose result depends on the Unicode database, on
    float printing or on the JSON grammar. *)
Record Runtime : Type := {
  (** [str.upper] *)
  str_upper : string -> string;
  (** [repr] of a [str] *)
  str_repr : string -> string;
  (** [repr] of a [float] *)
  float_repr : float -> string;
  (** the JSON string literal of a [str], [ensure_ascii=True] *)
  json_string : string -> string;
  (** [bytes.decode('utf-8')] *)
  bytes_decode : string -> outcome string;
  (** [json.loads] *)
  json_loads : string -> outcome pyval
}.

Section Rendering.
Variable rt : Runtime.

(** [repr(v)], which [str] of a list or dict applies to the items. *)
Fixpoint py_repr (v : pyval) : string :=
  match v with
  | PNone => "None"
  | PBool true => "True"
  | PBool false => "False"
  | PInt z => int_str z
  | PFloat f => float_repr rt f
  | PStr s => str_repr rt s
  | PList l => "[" ++ join ", " (map py_repr l) ++ "]"
  | PDict d =>
      "{" ++ join ", " (map (fun '(k, x) => str_repr rt k ++ ": " ++ py_repr x) d) ++ "}"
  end.

(** [str(v)], which an f-string field [{v}] inserts. *)
Definition py_str (v : pyval) : string :=
  match v with
  | PStr s => s
  | _ => py_repr v
  end.

(** [json.encoder.floatstr]. *)
Definition json_float (f : float) : string :=
  if PrimFloat.is_nan f then "NaN"
  else if PrimFloat.eqb f PrimFloat.infinity then "Infinity"
  else if PrimFloat.eqb f PrimFloat.neg_infinity then "-Infinity"
  else float_repr rt f.

(** The line break and indentation [json.dumps] inserts at a nesting
    level when [indent] is given. *)
Definition newline_indent (indent : option nat) (level : nat) : string :=
  match indent with
  | Some n => nl ++ String.concat "" (repeat " " (n * level))
  | None => ""
  end.

Definition item_separator (indent : option nat) : string :=
  match indent with Some _ => "," | None => ", " end.

(** [json.dumps(v, indent=indent)] at a nesting level. *)
Fixpoint json_encode (indent : option nat) (level : nat) (v : pyval) : string :=
  match v with
  | PNone => "null"
  | PBool true => "true"
  | PBool false => "false"
  | PInt z => int_str z
  | PFloat f => json_float f
  | PStr s => json_string rt s
  | PList [] => "[]"
  | PList l =>
      "[" ++ newline_indent indent (S level)
      ++ join (item_separator indent ++ newline_indent indent (S level))
              (map (json_encode indent (S level)) l)
      ++ newline_indent indent level ++ "]"
  | PDict [] => "{}"
  | PDict d =>
      "{" ++ newline_indent indent (S level)
      ++ join (item_separator indent ++ newline_indent indent (S level))
              (map (fun '(k, x) =>
                      json_string rt k ++ ": " ++ json_encode indent (S level) x) d)
      ++ newline_indent indent level ++ "}"
  end.

Definition json_dumps (indent : option nat) (v : pyval) : string :=
  json_encode indent 0 v.

End Rendering.

(** ** The warehouse client *)

(** A [datetime] value: always truthy, printed by [str]. *)
Record datetime : Type := { dt_str : string }.

(** One result row as [dict(row)]: column name to value.  Values are held
    in the form [json.dumps(..., default=str)] serialises them: JSON-native
    values as themselves, any other object by its [str]. *)
Definition row : Type := list (string * pyval).

Record DatasetListItem : Type := {
  dli_dataset_id : string;
  dli_project : string
}.

Record Dataset : Type := {
  ds_location : option string;
  ds_created : option datetime;
  ds_description : option string;
  ds_labels : list (string * string)
}.

Record DatasetReference : Type := {
  dr_project : string;
  dr_dataset_id : string
}.

Record TableReference : Type := {
  tr_dataset : DatasetReference;
  tr_table_id : pyval
}.

(** [tli_num_rows] is [Some n] when the item has a [num_rows] attribute
    that is not [None]. *)
Record TableListItem : Type := {
  tli_table_id : string;
  tli_table_type : option string;
  tli_project : string;
  tli_dataset_id : string;
  tli_created : option datetime;
  tli_num_rows : option Z
}.

Record SchemaField : Type := {
  sf_name : string;
  sf_field_type : string;
  sf_mode : string;
  sf_description : option string
}.

Record Table : Type := {
  tb_table_id : string;
  tb_dataset_id : string;
  tb_project : string;
  tb_num_rows : option Z;
  tb_schema : list SchemaField;
  tb_created : option datetime;
  tb_modified : option datetime;
  tb_description : option string
}.

(** The operations of [bigquery.Client] the server uses, over a state [W]
    of the remote service.  Each may return or raise, and may change [W]. *)
Record Client (W : Type) : Type := {
  (** [client.query(q).result()], iterated to the end *)
  cl_query : pyval -> W -> outcome (list row) * W;
  (** [list(client.list_datasets())] *)
  cl_list_datasets : W -> outcome (list DatasetListItem) * W;
  (** [client.get_dataset(dataset_id)] *)
  cl_get_dataset : string -> W -> outcome Dataset * W;
  (** [client.dataset(dataset_id)] *)
  cl_dataset : pyval -> W -> outcome DatasetReference * W;
  (** [dataset_ref.table(table_id)] *)
  cl_table : DatasetReference -> pyval -> W -> outcome TableReference * W;
  (** [list(client.list_tables(dataset_ref))] *)
  cl_list_tables : DatasetReference -> W -> outcome (list TableListItem) * W;
  (** [client.get_table(table_ref)] *)
  cl_get_table : TableReference -> W -> outcome Table * W
}.
Arguments cl_query {W} _ _ _.
Arguments cl_list_datasets {W} _ _.
Arguments cl_get_dataset {W} _ _ _.
Arguments cl_dataset {W} _ _ _.
Arguments cl_table {W} _ _ _ _.
Arguments cl_list_tables {W} _ _ _.
Arguments cl_get_table {W} _ _ _.

(** The calls made on the client, in order: a ghost trace. *)
Inductive call : Type :=
| CQuery (q : pyval)
| CListDatasets
| CGetDataset (dataset_id : string)
| CDataset (dataset_id : pyval)
| CTable (ref : DatasetReference) (table_id : pyval)
| CListTables (ref : DatasetReference)
| CGetTable (ref : TableReference).

(** ** The monad of the handlers *)

Inductive level : Type := INFO | ERROR.

(** What a handler can touch: the remote service, the trace of client
    calls, the records handed to [logger], and the frames the event
    stream has yielded. *)
Record store (W : Type) : Type := {
  world : W;
  calls : list call;
  logs : list (level * string);
  sent : list string
}.
Arguments world {W} _.
Arguments calls {W} _.
Arguments logs {W} _.
Arguments sent {W} _.

Definition M (W A : Type) : Type := store W -> outcome A * store W.

Definition ret {W A} (a : A) : M W A := fun st => (Ok a, st).

Definition bind {W A B} (m : M W A) (k : A -> M W B) : M W B :=
  fun st =>
    match m st with
    | (Ok a, st') => k a st'
    | (Raise e, st') => (Raise e, st')
    end.

Definition raise {W A} (e : exn) : M W A := fun st => (Raise e, st).

(** A pure operation that may raise. *)
Definition lift {W A} (o : outcome A) : M W A := fun st => (o, st).

(** [try: m except Exception as e: h e].  What [m] did before it raised
    stays done. *)
Definition try_except {W A} (m : M W A) (h : exn -> M W A) : M W A :=
  fun st =>
    match m st with
    | (Ok a, st') => (Ok a, st')
    | (Raise e, st') => h e st'
    end.

Definition add_log {W} (lv : level) (msg : string) (st : store W) : store W :=
  {| world := world st; calls := calls st;
     logs := logs st ++ [(lv, msg)]; sent := sent st |}.

Definition add_frame {W} (frame : string) (st : store W) : store W :=
  {| world := world st; calls := calls st;
     logs := logs st; sent := sent st ++ [frame] |}.

Definition add_call {W} (c : call) (w : W) (st : store W) : store W :=
  {| world := w; calls := calls st ++ [c];
     logs := logs st; sent := sent st |}.

(** [logger.info(msg)] and [logger.error(msg)]. *)
Definition log {W} (lv : level) (msg : string) : M W unit :=
  fun st => (Ok tt, add_log lv msg st).

(** [yield frame] of the event stream. *)
Definition yield {W} (frame : string) : M W unit :=
  fun st => (Ok tt, add_frame frame st).

(** A call on the client, recorded in the trace. *)
Definition call_client {W A} (c : call) (op : W -> outcome A * W) : M W A :=
  fun st =>
    let (r, w) := op (world st) in (r, add_call c w st).

(** [for x in xs: out.append(f x)]. *)
Fixpoint for_each {W A B} (f : A -> M W B) (xs : list A) : M W (list B) :=
  match xs with
  | [] => ret []
  | x :: rest =>
      bind (f x) (fun y => bind (for_each f rest) (fun ys => ret (y :: ys)))
  end.

Declare Scope py_scope.
Delimit Scope py_scope with py.
Notation "x <- m ;; k" := (bind m (fun x => k))
  (at level 100, m at next level, right associativity) : py_scope.
Notation "m ;; k" := (bind m (fun _ => k))
  (at level 100, right associativity) : py_scope.

(** ** Method calls on values *)

(** [v.get(key, default)]: defined on a dict only. *)
Definition py_get (v : pyval) (key : string) (default : pyval) : outcome pyval :=
  match v with
  | PDict d => Ok (dict_get d key default)
  | _ => Raise (attribute_error v "get")
  end.

(** [v.upper()]: defined on a [str] only. *)
Definition py_upper (rt : Runtime) (v : pyval) : outcome string :=
  match v with
  | PStr s => Ok (str_upper rt s)
  | _ => Raise (attribute_error v "upper")
  end.

(** [x or default] for an optional string. *)
Definition or_default (x : option string) (default : string) : string :=
  match x with
  | Some s => if String.eqb s "" then default else s
  | None => default
  end.

(** [str(x) if x else None] for an optional [datetime]. *)
Definition datetime_or_none (x : option datetime) : pyval :=
  match x with
  | Some t => PStr (dt_str t)
  | None => PNone
  end.

Definition opt_str (x : option string) : pyval :=
  match x with Some s => PStr s | None => PNone end.

Definition opt_int (x : option Z) : pyval :=
  match x with Some z => PInt z | None => PNone end.

(** The Content Envelope [{'content': [{'type': 'text', 'text': t}]}]. *)
Definition text_content (t : string) : pyval :=
  PDict [("content", PList [PDict [("type", PStr "text"); ("text", PStr t)]])].

(** The four descriptors of [tools/list]. *)
Definition string_property (description : string) : pyval :=
  PDict [("type", PStr "string"); ("description", PStr description)].

Definition tool_descriptors : list pyval :=
  [ PDict [("name", PStr "query_bigquery");
           ("description", PStr "Esegue una query SQL su BigQuery");
           ("inputSchema",
            PDict [("type", PStr "object");
                   ("properties",
                    PDict [("query", string_property "Query SQL da eseguire");
                           ("limit",
                            PDict [("type", PStr "number");
                                   ("description",
                                    PStr "Limite di righe da restituire (default: 100)");
                                   ("default", PInt 100)])]);
                   ("required", PList [PStr "query"])])];
    PDict [("name", PStr "list_datasets");
           ("description", PStr "Lista tutti i dataset disponibili nel progetto");
           ("inputSchema",
            PDict [("type", PStr "object"); ("properties", PDict [])])];
    PDict [("name", PStr "list_tables");
           ("description", PStr "Lista le tabelle in un dataset");
           ("inputSchema",
            PDict [("type", PStr "object");
                   ("properties",
                    PDict [("dataset_id", string_property "ID del dataset")]);
                   ("required", PList [PStr "dataset_id"])])];
    PDict [("name", PStr "describe_table");
           ("description", PStr "Descrive la struttura di una tabella");
           ("inputSchema",
            PDict [("type", PStr "object");
                   ("properties",
                    PDict [("dataset_id", string_property "ID del dataset");
                           ("table_id", string_property "ID della tabella")]);
                   ("required", PList [PStr "dataset_id"; PStr "table_id"])])] ].

(** A JSON-RPC response carrying [result]. *)
Definition rpc_result (request_id result : pyval) : pyval :=
  PDict [("jsonrpc", PStr "2.0"); ("id", request_id); ("result", result)].

(** A JSON-RPC response carrying [error]. *)
Definition rpc_error (request_id : pyval) (code : Z) (message : string) : pyval :=
  PDict [("jsonrpc", PStr "2.0"); ("id", request_id);
         ("error", PDict [("code", PInt code); ("message", PStr message)])].

(** ** Requests on the wire *)

(** What an [await] gives the coroutine that waits: the awaited call
    returns or raises, or the task is cancelled while it waits and
    nothing after the [await] runs.  A cancellation is no [Exception],
    so no handler of the source sees it. *)
Inductive awaited (A : Type) : Type :=
| Resumed (o : outcome A)
| Abandoned.
Arguments Resumed {A} o.
Arguments Abandoned {A}.

(** The [Request] handed to [sse_endpoint]: the body the client posted,
    and what [await request.body()] gives the generator, which reads the
    body while the response is already being streamed. *)
Record Request : Type := {
  req_payload : string;
  req_body : awaited string
}.

(** ** The server *)

Section Server.
Context {W : Type}.
Variable rt : Runtime.
Variable client : Client W.

Local Open Scope py_scope.

(** The [try] block of [query_bigquery]. *)
Definition query_bigquery_try (query limit : pyval) : M W pyval :=
  upper <- lift (py_upper rt query) ;;
  let query :=
    if negb (str_contains "LIMIT" upper) && py_truthy limit
    then PStr (py_str rt query ++ " LIMIT " ++ py_str rt limit)
    else query in
  rows <- call_client (CQuery query) (cl_query client query) ;;
  ret (text_content
         ("Query eseguita con successo. Righe restituite: "
          ++ int_str (Z.of_nat (length rows)) ++ nl ++ nl
          ++ "Risultati:" ++ nl
          ++ json_dumps rt (Some 2) (PList (map PDict rows)))).

(** [BigQueryMCPServer.query_bigquery]. *)
Definition query_bigquery (args : pyval) : M W pyval :=
  query <- lift (py_get args "query" (PStr "")) ;;
  limit <- lift (py_get args "limit" (PInt 100)) ;;
  try_except
    (query_bigquery_try query limit)
    (fun e =>
       ret (text_content ("Errore nell'esecuzione della query: " ++ exn_str e))).

(** The record [list_datasets_impl] appends when the metadata fetch of a
    dataset returned [full_dataset]. *)
Definition extended_record (dataset : DatasetListItem) (full_dataset : Dataset) : pyval :=
  PDict [("dataset_id", PStr (dli_dataset_id dataset));
         ("project", PStr (dli_project dataset));
         ("location", opt_str (ds_location full_dataset));
         ("created", datetime_or_none (ds_created full_dataset));
         ("description",
          PStr (or_default (ds_description full_dataset) "Nessuna descrizione"));
         ("labels",
          PDict (map (fun '(k, v) => (k, PStr v)) (ds_labels full_dataset)))].

(** The record it appends when the fetch raised [e]. *)
Definition reduced_record (dataset : DatasetListItem) (e : exn) : pyval :=
  PDict [("dataset_id", PStr (dli_dataset_id dataset));
         ("project", PStr (dli_project dataset));
         ("full_name",
          PStr (dli_project dataset ++ "." ++ dli_dataset_id dataset));
         ("error", PStr ("Impossibile ottenere dettagli: " ++ exn_str e))].

(** The body of the [for dataset in datasets] loop of [list_datasets_impl]:
    the record appended for one dataset. *)
Definition dataset_record (dataset : DatasetListItem) : M W pyval :=
  try_except
    (full_dataset <- call_client (CGetDataset (dli_dataset_id dataset))
                       (cl_get_dataset client (dli_dataset_id dataset)) ;;
     ret (extended_record dataset full_dataset))
    (fun e => ret (reduced_record dataset e)).

(** The outer [try] block of [list_datasets_impl]. *)
Definition list_datasets_try : M W pyval :=
  datasets <- call_client CListDatasets (cl_list_datasets client) ;;
  dataset_info <- for_each dataset_record datasets ;;
  ret (text_content
         ("Dataset trovati: " ++ int_str (Z.of_nat (length dataset_info))
          ++ nl ++ nl ++ json_dumps rt (Some 2) (PList dataset_info))).

(** [BigQueryMCPServer.list_datasets_impl]. *)
Definition list_datasets_impl : M W pyval :=
  try_except
    list_datasets_try
    (fun e =>
       ret (text_content ("Errore nel recuperare i dataset: " ++ exn_str e))).

(** The body of the [for table in tables] loop of [list_tables].  The
    optional fields are added only when set; on these records neither
    attribute access can raise, so the inner bare [except] never fires. *)
Definition table_record (table : TableListItem) : pyval :=
  PDict ([("table_id", PStr (tli_table_id table));
          ("table_type", opt_str (tli_table_type table));
          ("full_name",
           PStr (tli_project table ++ "." ++ tli_dataset_id table
                 ++ "." ++ tli_table_id table))]
         ++ match tli_created table with
            | Some t => [("created", PStr (dt_str t))]
            | None => []
            end
         ++ match tli_num_rows table with
            | Some n => [("num_rows", PInt n)]
            | None => []
            end)%list.

(** The outer [try] block of [list_tables]. *)
Definition list_tables_try (dataset_id : pyval) : M W pyval :=
  dataset_ref <- call_client (CDataset dataset_id) (cl_dataset client dataset_id) ;;
  tables <- call_client (CListTables dataset_ref)
              (cl_list_tables client dataset_ref) ;;
  let table_info := map table_record tables in
  ret (text_content
         ("Tabelle nel dataset " ++ py_str rt dataset_id ++ ": "
          ++ int_str (Z.of_nat (length table_info))
          ++ nl ++ nl ++ json_dumps rt (Some 2) (PList table_info))).

(** [BigQueryMCPServer.list_tables]. *)
Definition list_tables (args : pyval) : M W pyval :=
  dataset_id <- lift (py_get args "dataset_id" PNone) ;;
  try_except
    (list_tables_try dataset_id)
    (fun e =>
       ret (text_content ("Errore nel recuperare le tabelle: " ++ exn_str e))).

Definition field_record (field : SchemaField) : pyval :=
  PDict [("name", PStr (sf_name field));
         ("type", PStr (sf_field_type field));
         ("mode", PStr (sf_mode field));
         ("description",
          PStr (or_default (sf_description field) "Nessuna descrizione"))].

(** The [try] block of [describe_table]. *)
Definition describe_table_try (dataset_id table_id : pyval) : M W pyval :=
  dataset_ref <- call_client (CDataset dataset_id) (cl_dataset client dataset_id) ;;
  table_ref <- call_client (CTable dataset_ref table_id)
                 (cl_table client dataset_ref table_id) ;;
  table <- call_client (CGetTable table_ref) (cl_get_table client table_ref) ;;
  let schema_info := map field_record (tb_schema table) in
  let table_info :=
    PDict [("table_id", PStr (tb_table_id table));
           ("dataset_id", PStr (tb_dataset_id table));
           ("project", PStr (tb_project table));
           ("num_rows", opt_int (tb_num_rows table));
           ("schema", PList schema_info);
           ("created", datetime_or_none (tb_created table));
           ("modified", datetime_or_none (tb_modified table));
           ("description",
            PStr (or_default (tb_description table) "Nessuna descrizione"))] in
  ret (text_content
         ("Descrizione tabella " ++ py_str rt dataset_id ++ "."
          ++ py_str rt table_id ++ ":" ++ nl ++ nl
          ++ json_dumps rt (Some 2) table_info)).

(** [BigQueryMCPServer.describe_table]. *)
Definition describe_table (args : pyval) : M W pyval :=
  dataset_id <- lift (py_get args "dataset_id" PNone) ;;
  table_id <- lift (py_get args "table_id" PNone) ;;
  try_except
    (describe_table_try dataset_id table_id)
    (fun e =>
       ret (text_content ("Errore nel descrivere la tabella: " ++ exn_str e))).

(** [BigQueryMCPServer.call_tool]. *)
Definition call_tool (name arguments : pyval) : M W pyval :=
  try_except
    (if py_eq_str name "query_bigquery" then query_bigquery arguments
     else if py_eq_str name "list_datasets" then list_datasets_impl
     else if py_eq_str name "list_tables" then list_tables arguments
     else if py_eq_str name "describe_table" then describe_table arguments
     else raise (Exn "ValueError" ("Strumento non trovato: " ++ py_str rt name)))
    (fun e =>
       log ERROR ("Errore nell'esecuzione dello strumento " ++ py_str rt name
                  ++ ": " ++ exn_str e) ;;
       raise e).

(** The [try] block of [handle_mcp_request]. *)
Definition dispatch_request (request : pyval) : M W pyval :=
  method <- lift (py_get request "method" PNone) ;;
  params <- lift (py_get request "params" (PDict [])) ;;
  request_id <- lift (py_get request "id" PNone) ;;
  log INFO ("Ricevuta richiesta MCP: " ++ py_str rt method) ;;
  if py_eq_str method "initialize" then
    ret (rpc_result request_id
           (PDict [("protocolVersion", PStr "2024-11-05");
                   ("capabilities", PDict [("tools", PDict [])]);
                   ("serverInfo",
                    PDict [("name", PStr "bigquery-mcp-server");
                           ("version", PStr "1.0.0")])]))
  else if py_eq_str method "tools/list" then
    ret (rpc_result request_id (PDict [("tools", PList tool_descriptors)]))
  else if py_eq_str method "tools/call" then
    tool_name <- lift (py_get params "name" PNone) ;;
    arguments <- lift (py_get params "arguments" (PDict [])) ;;
    result <- call_tool tool_name arguments ;;
    ret (rpc_result request_id result)
  else
    ret (rpc_error request_id (-32601)
           ("Metodo non trovato: " ++ py_str rt method)).

(** [BigQueryMCPServer.handle_mcp_request]. *)
Definition handle_mcp_request (request : pyval) : M W pyval :=
  try_except
    (dispatch_request request)
    (fun e =>
       log ERROR ("Errore nella gestione della richiesta: " ++ exn_str e) ;;
       request_id <- lift (py_get request "id" PNone) ;;
       ret (rpc_error request_id (-32603)
              ("Errore interno del server: " ++ exn_str e))).

(** One Server-Sent Events frame: [data: <payload>] and a blank line. *)
Definition sse_frame (payload : string) : string :=
  "data: " ++ payload ++ nl ++ nl.

(** The [try] block of [event_stream] once the body is read. *)
Definition event_stream_try (body : string) : M W unit :=
  if negb (String.eqb body "") then
    text <- lift (bytes_decode rt body) ;;
    mcp_request <- lift (json_loads rt text) ;;
    response <- handle_mcp_request mcp_request ;;
    yield (sse_frame (json_dumps rt None response))
  else
    yield (sse_frame (json_dumps rt None (PDict [("type", PStr "connected")]))).

(** The [except Exception] block of [event_stream]. *)
Definition event_stream_except (e : exn) : M W unit :=
  log ERROR ("Errore nel flusso SSE: " ++ exn_str e) ;;
  let error_response :=
    rpc_error PNone (-32603) ("Errore del server SSE: " ++ exn_str e) in
  yield (sse_frame (json_dumps rt None error_response)).

(** The generator [event_stream] of [sse_endpoint].  Its [try] block
    opens with [await request.body()]: a fault of the read reaches the
    handler like any other, and a read that is abandoned ends the
    generator where it waits, with nothing yielded.  The result tells
    how the generator ended: exhausted ([Resumed (Ok tt)]), by a fault
    that escaped it, or abandoned. *)
Definition event_stream (request : Request) : store W -> awaited unit * store W :=
  fun st =>
    match req_body request with
    | Abandoned => (Abandoned, st)
    | Resumed read =>
        let (o, st') :=
          try_except (body <- lift read ;; event_stream_try body)
            event_stream_except st in
        (Resumed o, st')
    end.

(** The [StreamingResponse] of [sse_endpoint]. *)
Record StreamingResponse : Type := {
  content : store W -> awaited unit * store W;
  media_type : string;
  headers : list (string * string)
}.

(** [sse_endpoint]. *)
Definition sse_endpoint (request : Request) : StreamingResponse :=
  {| content := event_stream request;
     media_type := "text/event-stream";
     headers := [("Cache-Control", "no-cache");
                 ("Connection", "keep-alive");
                 ("Access-Control-Allow-Origin", "*");
                 ("Access-Control-Allow-Headers", "*")] |}.

End Server.

(** ** A runtime and a client to run the server on *)

Module Demo.

Definition ascii_upper (c : ascii) : ascii :=
  let n := nat_of_ascii c in
  if Nat.leb 97 n && Nat.leb n 122 then ascii_of_nat (n - 32) else c.

Fixpoint upper (s : string) : string :=
  match s with
  | EmptyString => EmptyString
  | String c rest => String (ascii_upper c) (upper rest)
  end.

(** The double-quote character. *)
Definition dq : string := String "034"%char EmptyString.

Fixpoint assoc (table : list (string * pyval)) (key : string) : option pyval :=
  match table with
  | [] => None
  | (k, v) :: rest => if String.eqb k key then Some v else assoc rest key
  end.

(** A runtime that is Python's on plain ASCII text (letters, digits,
    spaces and punctuation other than quotes and backslashes) and on
    values without floats.  Request bodies are parsed by a table of known
    documents; any other body is refused the way [json.loads] refuses
    text that is not JSON. *)
Definition runtime (documents : list (string * pyval)) : Runtime :=
  {| str_upper := upper;
     str_repr := fun s => "'" ++ s ++ "'";
     float_repr := fun _ => "0.0";
     json_string := fun s => dq ++ s ++ dq;
     bytes_decode := fun b => Ok b;
     json_loads := fun text =>
       match assoc documents text with
       | Some v => Ok v
       | None =>
           Raise (Exn "JSONDecodeError" "Expecting value: line 1 column 1 (char 0)")
       end |}.

Definition rt : Runtime := runtime [].

Definition orders : Table :=
  {| tb_table_id := "orders"; tb_dataset_id := "sales"; tb_project := "demo";
     tb_num_rows := Some 2%Z;
     tb_schema := [ {| sf_name := "id"; sf_field_type := "INTEGER";
                       sf_mode := "REQUIRED"; sf_description := None |} ];
     tb_created := Some {| dt_str := "2024-01-01 00:00:00+00:00" |};
     tb_modified := None;
     tb_description := Some "Orders" |}.

(** A warehouse with project [demo]: dataset [sales] with table [orders],
    and dataset [vault] whose metadata cannot be read.  Its state counts
    the requests served. *)
Definition client : Client nat :=
  {| cl_query := fun q w =>
       match q with
       | PStr s =>
           if str_contains "FROM missing" s
           then (Raise (Exn "NotFound" "404 Not found: Table demo:sales.missing"), S w)
           else (Ok [[("f0_", PInt 1)]], S w)
       | _ => (Raise (Exn "TypeError" "query must be a string"), w)
       end;
     cl_list_datasets := fun w =>
       (Ok [ {| dli_dataset_id := "sales"; dli_project := "demo" |};
             {| dli_dataset_id := "vault"; dli_project := "demo" |} ], S w);
     cl_get_dataset := fun id w =>
       if String.eqb id "sales"
       then (Ok {| ds_location := Some "EU"; ds_created := None;
                   ds_description := None; ds_labels := [("team", "bi")] |}, S w)
       else (Raise (Exn "Forbidden" "403 Access Denied"), S w);
     cl_dataset := fun id w =>
       match id with
       | PStr s => (Ok {| dr_project := "demo"; dr_dataset_id := s |}, w)
       | _ => (Raise (Exn "ValueError" "Pass a string for dataset_id"), w)
       end;
     cl_table := fun ref id w => (Ok {| tr_dataset := ref; tr_table_id := id |}, w);
     cl_list_tables := fun ref w =>
       if String.eqb (dr_dataset_id ref) "sales"
       then (Ok [ {| tli_table_id := "orders"; tli_table_type := Some "TABLE";
                     tli_project := "demo"; tli_dataset_id := "sales";
                     tli_created := None; tli_num_rows := None |} ], S w)
       else (Raise (Exn "NotFound" "404 Not found: Dataset"), S w);
     cl_get_table := fun ref w =>
       match tr_table_id ref with
       | PStr "orders" => (Ok orders, S w)
       | _ => (Raise (Exn "NotFound" "404 Not found: Table"), S w)
       end |}.

(** The store before the first request. *)
Definition st0 : store nat :=
  {| world := 0; calls := []; logs := []; sent := [] |}.

(** A [tools/call] request. *)
Definition tools_call (id : Z) (name : string) (arguments : pyval) : pyval :=
  PDict [("jsonrpc", PStr "2.0"); ("id", PInt id); ("method", PStr "tools/call");
         ("params", PDict [("name", PStr name); ("arguments", arguments)])].

End Demo.


(** ** The query handed to the client *)

(** The query text [query_bigquery] runs, for a query string [q]. *)
Definition final_query (rt : Runtime) (q : string) (limit : pyval) : pyval :=
  if negb (str_contains "LIMIT" (str_upper rt q)) && py_truthy limit
  then PStr (q ++ " LIMIT " ++ py_str rt limit)
  else PStr q.

(** ** The specification read to the letter *)

(** The upper-cased query decides alone whether [LIMIT <limit>] is
    appended. *)
Definition limit_appended_whenever_absent {W} (rt : Runtime) (cl : Client W)
    (d : list (string * pyval)) (st : store W) : Prop :=
  forall q, dict_get d "query" (PStr "") = PStr q ->
    calls (snd (query_bigquery rt cl (PDict d) st)) =
    (calls st ++
      [CQuery (PStr (if str_contains "LIMIT" (str_upper rt q) then q
                     else q ++ " LIMIT "
                          ++ py_str rt (dict_get d "limit" (PInt 100))))])%list.


(** With a falsy limit the ['query'] argument is run as supplied. *)
Definition falsy_limit_runs_as_supplied {W} (rt : Runtime) (cl : Client W)
    (d : list (string * pyval)) (st : store W) : Prop :=
  forall limit,
    dict_lookup d "limit" = Some limit ->
    py_truthy limit = false ->
    calls (snd (query_bigquery rt cl (PDict d) st))
    = (calls st ++ [CQuery (dict_get d "query" (PStr ""))])%list.


(** A POST is answered with exactly one frame, and a frame that carries
    the error -32603 carries a null id. *)
Definition one_frame_null_id_on_fault {W} (rt : Runtime) (cl : Client W)
    (request : Request) (st : store W) : Prop :=
  exists frame,
    sent (snd (content (sse_endpoint rt cl request) st)) = (sent st ++ [frame])%list
    /\ forall id message,
         frame = sse_frame (json_dumps rt None (rpc_error id (-32603) message)) ->
         id = PNone.

(** The names [call_tool] knows. *)
Definition tool_names : list string :=
  ["query_bigquery"; "list_datasets"; "list_tables"; "describe_table"].

(** The keys the schema of [tools/list] marks as required. *)
Definition required_keys (name : string) : list string :=
  if String.eqb name "query_bigquery" then ["query"]
  else if String.eqb name "list_tables" then ["dataset_id"]
  else if String.eqb name "describe_table" then ["dataset_id"; "table_id"]
  else [].

(** A call that lacks a required key makes no call on the client. *)
Definition presence_validated {W} (rt : Runtime) (cl : Client W)
    (name : string) (d : list (string * pyval)) (st : store W) : Prop :=
  (exists k, In k (required_keys name) /\ dict_lookup d k = None) ->
  calls (snd (call_tool rt cl (PStr name) (PDict d) st)) = calls st.

(** ** Reading records and tool descriptors *)

(** [v[key]] when [v] is a dict that has the key. *)
Definition field (v : pyval) (key : string) : option pyval :=
  match v with
  | PDict d => dict_lookup d key
  | _ => None
  end.

Definition has_field (v : pyval) (key : string) : bool :=
  match field v key with Some _ => true | None => false end.

Definition descriptor_name (tool : pyval) : pyval :=
  match tool with
  | PDict d => dict_get d "name" PNone
  | _ => PNone
  end.

(** The [required] list of a descriptor's input schema; a schema without
    the key requires nothing. *)
Definition descriptor_required (tool : pyval) : pyval :=
  match tool with
  | PDict d =>
      match dict_get d "inputSchema" PNone with
      | PDict schema => dict_get schema "required" (PList [])
      | _ => PList []
      end
  | _ => PList []
  end.

(** ** The records of [list_datasets], dataset by dataset *)

(** [entries_for cl datasets st entries st']: starting in [st], the loop
    over [datasets] fetches each one's metadata in turn, appends its
    extended record when the fetch returns and its reduced record when
    the fetch raises, and ends in [st']. *)
Inductive entries_for {W} (cl : Client W) :
    list DatasetListItem -> store W -> list pyval -> store W -> Prop :=
| entries_nil st :
    entries_for cl [] st [] st
| entries_fetched dataset rest st full w entries st' :
    cl_get_dataset cl (dli_dataset_id dataset) (world st) = (Ok full, w) ->
    entries_for cl rest (add_call (CGetDataset (dli_dataset_id dataset)) w st)
                entries st' ->
    entries_for cl (dataset :: rest) st
                (extended_record dataset full :: entries) st'
| entries_failed dataset rest st e w entries st' :
    cl_get_dataset cl (dli_dataset_id dataset) (world st) = (Raise e, w) ->
    entries_for cl rest (add_call (CGetDataset (dli_dataset_id dataset)) w st)
                entries st' ->
    entries_for cl (dataset :: rest) st
                (reduced_record dataset e :: entries) st'.

(** ** The frames of the event stream *)

(** The frame the event stream sends for a fault [e] that reaches it. *)
Definition sse_error_frame (rt : Runtime) (e : exn) : string :=
  sse_frame
    (json_dumps rt None
       (rpc_error PNone (-32603) ("Errore del server SSE: " ++ exn_str e))).

(** ** Effects a computation leaves alone *)

(** The computation yields no frame. *)
Definition silent {W A} (m : M W A) : Prop :=
  forall st, sent (snd (m st)) = sent st.

(** ** Start-up and the informational endpoints *)

(** [os.environ.get(key)]. *)
Fixpoint env_lookup (environ : list (string * string)) (key : string) : option string :=
  match environ with
  | [] => None
  | (k, v) :: rest => if String.eqb k key then Some v else env_lookup rest key
  end.

(** [os.getenv(key, default)]: the default stands in only for a variable
    that is not set. *)
Definition getenv (environ : list (string * string)) (key default : string) : string :=
  match env_lookup environ key with Some v => v | None => default end.

(** [os.environ[key] = value]. *)
Fixpoint setenv (environ : list (string * string)) (key value : string)
    : list (string * string) :=
  match environ with
  | [] => [(key, value)]
  | (k, v) :: rest =>
      if String.eqb k key then (k, value) :: rest
      else (k, v) :: setenv rest key value
  end.

(** What start-up reads and writes: the environment of the process and a
    file system [F]. *)
Record process (F : Type) : Type := {
  environ : list (string * string);
  fs : F
}.
Arguments environ {F} _.
Arguments fs {F} _.

(** The library operations of start-up, over a file system [F] and a
    type [C] of client handles. *)
Record Platform (F C : Type) : Type := {
  (** [tempfile.NamedTemporaryFile(mode='w', suffix=suffix, delete=False)]:
      creates the file and gives its name *)
  named_temporary_file : string -> F -> outcome string * F;
  (** [f.write(text)] on the file of that name *)
  file_write : string -> string -> F -> outcome unit * F;
  (** closing the file, at the end of the [with] block *)
  file_close : string -> F -> outcome unit * F;
  (** [bigquery.Client(project=project_id)], which reads the environment
      and the credentials file it names *)
  bigquery_Client : string -> process F -> outcome C
}.
Arguments named_temporary_file {F C} _ _ _.
Arguments file_write {F C} _ _ _ _.
Arguments file_close {F C} _ _ _.
Arguments bigquery_Client {F C} _ _ _.

(** The object [BigQueryMCPServer()] builds. *)
Record BigQueryMCPServer (C : Type) : Type := {
  srv_project_id : string;
  srv_client : option C
}.
Arguments srv_project_id {C} _.
Arguments srv_client {C} _.

Section Startup.
Context {F C : Type}.
Variable platform : Platform F C.

Local Open Scope py_scope.

Definition read_environ : M (process F) (list (string * string)) :=
  fun st => (Ok (environ (world st)), st).

Definition set_environ (key value : string) : M (process F) unit :=
  fun st =>
    (Ok tt,
     {| world := {| environ := setenv (environ (world st)) key value;
                    fs := fs (world st) |};
        calls := calls st; logs := logs st; sent := sent st |}).

(** An operation on the file system. *)
Definition on_fs {A} (op : F -> outcome A * F) : M (process F) A :=
  fun st =>
    let (r, f) := op (fs (world st)) in
    (r, {| world := {| environ := environ (world st); fs := f |};
           calls := calls st; logs := logs st; sent := sent st |}).

(** [with tempfile.NamedTemporaryFile(...) as f: body f.name]: the file
    is closed when the block ends, also when it ends by a fault, and a
    fault of the close replaces the block's. *)
Definition with_named_temporary_file (suffix : string)
    (body : string -> M (process F) unit) : M (process F) unit :=
  name <- on_fs (named_temporary_file platform suffix) ;;
  fun st =>
    match body name st with
    | (Ok _, st1) => on_fs (file_close platform name) st1
    | (Raise e, st1) =>
        match on_fs (file_close platform name) st1 with
        | (Ok _, st2) => (Raise e, st2)
        | (Raise e', st2) => (Raise e', st2)
        end
    end.

(** The [if creds_json:] statement of [_initialize_client]. *)
Definition write_credentials (creds_json : option string) : M (process F) unit :=
  match creds_json with
  | Some text =>
      if negb (String.eqb text "") then
        with_named_temporary_file ".json"
          (fun name =>
             on_fs (file_write platform name text) ;;
             set_environ "GOOGLE_APPLICATION_CREDENTIALS" name)
      else ret tt
  | None => ret tt
  end.

(** [BigQueryMCPServer._initialize_client]: the client it stores. *)
Definition _initialize_client (project_id : string) : M (process F) C :=
  try_except
    (env <- read_environ ;;
     write_credentials (env_lookup env "GOOGLE_APPLICATION_CREDENTIALS_JSON") ;;
     client <- (fun st => (bigquery_Client platform project_id (world st), st)) ;;
     log INFO ("BigQuery client inizializzato per il progetto: " ++ project_id) ;;
     ret client)
    (fun e =>
       log ERROR ("Errore nell'inizializzazione del client BigQuery: " ++ exn_str e) ;;
       raise e).

(** How [_initialize_client] ends once the credentials step is done. *)
Definition client_built (project_id : string) (st : store (process F))
    : outcome C * store (process F) :=
  match bigquery_Client platform project_id (world st) with
  | Ok client =>
      (Ok client,
       add_log INFO ("BigQuery client inizializzato per il progetto: " ++ project_id) st)
  | Raise e =>
      (Raise e,
       add_log ERROR
         ("Errore nell'inizializzazione del client BigQuery: " ++ exn_str e) st)
  end.

(** [BigQueryMCPServer.__init__]: the object, when start-up does not
    raise. *)
Definition new_server : M (process F) (BigQueryMCPServer C) :=
  env <- read_environ ;;
  let project_id := getenv env "GOOGLE_CLOUD_PROJECT" "big-query-instilla" in
  client <- _initialize_client project_id ;;
  ret {| srv_project_id := project_id; srv_client := Some client |}.

(** [health_check]. *)
Definition health_check (mcp_server : BigQueryMCPServer C) : pyval :=
  PDict [("status", PStr "healthy");
         ("service", PStr "BigQuery MCP Server with SSE");
         ("project", PStr (srv_project_id mcp_server));
         ("protocol", PStr "MCP over SSE")].

(** [root]. *)
Definition root (mcp_server : BigQueryMCPServer C) : pyval :=
  PDict [("name", PStr "BigQuery MCP Server");
         ("version", PStr "1.0.0");
         ("protocol", PStr "MCP over SSE");
         ("project", PStr (srv_project_id mcp_server));
         ("endpoints",
          PDict [("health", PStr "/health");
                 ("sse", PStr "/sse");
                 ("tools", PStr "Use MCP client to connect via SSE")]);
         ("usage", PStr "Connect using MCP Client with SSE transport")].

End Startup.

(** ** Requests to run the endpoint on *)

Module Wire.

(** A POST whose body reaches the generator. *)
Definition delivered (body : string) : Request :=
  {| req_payload := body; req_body := Resumed (Ok body) |}.


(** A POST whose body read never returns: the stream is closed while
    the generator waits. *)
Definition stalled (body : string) : Request :=
  {| req_payload := body; req_body := Abandoned |}.

(** The JSON text of a value of plain ASCII text, and a runtime that
    parses that text back. *)
Definition text_of (v : pyval) : string := json_dumps Demo.rt None v.

Definition runtime_for (v : pyval) : Runtime := Demo.runtime [(text_of v, v)].

End Wire.

(** ** More to run the server on *)

Module Demo2.

Definition hex_digit (n : nat) : ascii :=
  ascii_of_nat (if Nat.ltb n 10 then 48 + n else 87 + n).

Definition backslash : string := String "092"%char EmptyString.

(** The escape [json.dumps] writes for one character of ASCII text. *)
Definition escape_char (c : ascii) : string :=
  let n := nat_of_ascii c in
  if Nat.eqb n 34 then backslash ++ Demo.dq
  else if Nat.eqb n 92 then backslash ++ backslash
  else if Nat.eqb n 10 then backslash ++ "n"
  else if Nat.eqb n 13 then backslash ++ "r"
  else if Nat.eqb n 9 then backslash ++ "t"
  else if Nat.eqb n 8 then backslash ++ "b"
  else if Nat.eqb n 12 then backslash ++ "f"
  else if Nat.leb 32 n && Nat.leb n 126 then String c EmptyString
  else backslash ++ "u00"
       ++ String (hex_digit (n / 16)) (String (hex_digit (n mod 16)) EmptyString).

Fixpoint escape (s : string) : string :=
  match s with
  | EmptyString => EmptyString
  | String c rest => escape_char c ++ escape rest
  end.

(** [Demo.runtime] with the string literals of [json.dumps] escaped as
    Python escapes ASCII text. *)
Definition runtime (documents : list (string * pyval)) : Runtime :=
  {| str_upper := Demo.upper;
     str_repr := fun s => "'" ++ s ++ "'";
     float_repr := fun _ => "0.0";
     json_string := fun s => Demo.dq ++ escape s ++ Demo.dq;
     bytes_decode := fun b => Ok b;
     json_loads := json_loads (Demo.runtime documents) |}.

(** A request whose method has a line break in it, its JSON text, and a
    runtime that parses that text back. *)
Definition two_line_method : pyval := PDict [("method", PStr ("a" ++ nl ++ "b"))].

Definition two_line_text : string := json_dumps (runtime []) None two_line_method.

Definition two_line_runtime : Runtime := runtime [(two_line_text, two_line_method)].

(** A file system as the list of its files, newest first. *)
Definition files : Type := list (string * string).

Fixpoint append_to (name text : string) (fs : files) : files :=
  match fs with
  | [] => []
  | (n, body) :: rest =>
      if String.eqb n name then (n, body ++ text) :: rest
      else (n, body) :: append_to name text rest
  end.

(** Temporary files are named after their number; the client is built
    when the environment names a credentials file that exists, and its
    handle is the project id. *)
Definition platform : Platform files string :=
  {| named_temporary_file := fun suffix fs =>
       let name := "/tmp/tmp" ++ int_str (Z.of_nat (length fs)) ++ suffix in
       (Ok name, (name, "") :: fs);
     file_write := fun name text fs => (Ok tt, append_to name text fs);
     file_close := fun name fs => (Ok tt, fs);
     bigquery_Client := fun project_id p =>
       match env_lookup (environ p) "GOOGLE_APPLICATION_CREDENTIALS" with
       | Some path =>
           if existsb (fun file => String.eqb (fst file) path) (fs p)
           then Ok project_id
           else Raise (Exn "DefaultCredentialsError" ("File " ++ path ++ " was not found."))
       | None =>
           Raise (Exn "DefaultCredentialsError"
                    "Your default credentials were not found.")
       end |}.

(** The process before start-up, with the given environment. *)
Definition boot (env : list (string * string)) : store (process files) :=
  {| world := {| environ := env; fs := [] |};
     calls := []; logs := []; sent := [] |}.

End Demo2.

(** ** Text on one line *)


(** ** More effects a computation leaves alone *)

(** The computation hands nothing to the logger. *)
Definition quiet {W A} (m : M W A) : Prop :=
  forall st, logs (snd (m st)) = logs st.

(** The dict [describe_table] serialises for a table. *)
Definition table_info_record (table : Table) : pyval :=
  PDict [("table_id", PStr (tb_table_id table));
         ("dataset_id", PStr (tb_dataset_id table));
         ("project", PStr (tb_project table));
         ("num_rows", opt_int (tb_num_rows table));
         ("schema", PList (map field_record (tb_schema table)));
         ("created", datetime_or_none (tb_created table));
         ("modified", datetime_or_none (tb_modified table));
         ("description",
          PStr (or_default (tb_description table) "Nessuna descrizione"))].

Definition is_some {A} (x : option A) : bool :=
  match x with Some _ => true | None => false end.

(** * Properties *)

(** ** Dictionaries and comparisons *)

Lemma py_eq_str_true (v : pyval) (s : string) :
  py_eq_str v s = true <-> v = PStr s.
Proof.
  destruct v; simpl; split; intro H; try discriminate.
  - apply String.eqb_eq in H. now subst.
  - injection H as ->. apply String.eqb_refl.
Qed.

Lemma py_eq_str_false (v : pyval) (s : string) :
  py_eq_str v s = false <-> v <> PStr s.
Proof.
  rewrite <- py_eq_str_true. destruct (py_eq_str v s); split; congruence.
Qed.

Lemma dict_lookup_app (d : list (string * pyval)) (k key : string) (v : pyval) :
  dict_lookup (d ++ [(k, v)])%list key =
  match dict_lookup d key with
  | Some x => Some x
  | None => if String.eqb k key then Some v else None
  end.
Proof.
  induction d as [|[k' v'] d IH]; simpl.
  - reflexivity.
  - destruct (String.eqb k' key); [reflexivity | exact IH].
Qed.

(** Adding a key that is missing, with the default [get] would use,
    changes no [get]. *)
Lemma dict_get_app_default (d : list (string * pyval)) (k : string) (v : pyval) :
  dict_lookup d k = None ->
  forall key default,
    (key = k -> default = v) ->
    dict_get (d ++ [(k, v)])%list key default = dict_get d key default.
Proof.
  intros Hk key default Hdef. unfold dict_get. rewrite dict_lookup_app.
  destruct (dict_lookup d key) eqn:E; [reflexivity|].
  destruct (String.eqb k key) eqn:Ek; [|reflexivity].
  apply String.eqb_eq in Ek. symmetry. now apply Hdef.
Qed.

Lemma dict_get_app_other (d : list (string * pyval)) (k key : string) (v default : pyval) :
  String.eqb k key = false ->
  dict_get (d ++ [(k, v)])%list key default = dict_get d key default.
Proof.
  intro Hne. unfold dict_get. rewrite dict_lookup_app, Hne.
  now destruct (dict_lookup d key).
Qed.

(** ** The monad *)

Section MonadFacts.
Context {W : Type}.

Lemma try_except_ok {A} (m : M W A) (h : exn -> M W A) st a st1 :
  m st = (Ok a, st1) -> try_except m h st = (Ok a, st1).
Proof. intro H. unfold try_except. now rewrite H. Qed.

(** The shape every tool has: a [try] block whose handler turns the
    fault into a Content Envelope. *)
Lemma guarded_envelope (body : M W pyval) (prefix : string) st :
  (forall r st1, body st = (Ok r, st1) -> exists t, r = text_content t) ->
  exists t st',
    try_except body (fun e => ret (text_content (prefix ++ exn_str e))) st
    = (Ok (text_content t), st')
    /\ forall e st1, body st = (Raise e, st1) ->
         t = prefix ++ exn_str e /\ st' = st1.
Proof.
  intro Hok. unfold try_except.
  destruct (body st) as [[r|e] st1] eqn:E.
  - destruct (Hok r st1 eq_refl) as [t ->].
    exists t, st1. split; [reflexivity | intros; discriminate].
  - exists (prefix ++ exn_str e), st1. split; [reflexivity|].
    intros e' st2 H. injection H as -> ->. now split.
Qed.

Lemma silent_ret {A} (a : A) : silent (@ret W A a).
Proof. intro st. reflexivity. Qed.

Lemma silent_raise {A} (e : exn) : silent (@raise W A e).
Proof. intro st. reflexivity. Qed.

Lemma silent_lift {A} (o : outcome A) : silent (@lift W A o).
Proof. intro st. reflexivity. Qed.

Lemma silent_log (lv : level) (msg : string) : silent (@log W lv msg).
Proof. intro st. reflexivity. Qed.

Lemma silent_call_client {A} (c : call) (op : W -> outcome A * W) :
  silent (call_client c op).
Proof.
  intro st. unfold call_client. now destruct (op (world st)).
Qed.

Lemma silent_bind {A B} (m : M W A) (k : A -> M W B) :
  silent m -> (forall a, silent (k a)) -> silent (bind m k).
Proof.
  intros Hm Hk st. unfold bind. specialize (Hm st).
  destruct (m st) as [[a|e] st1]; simpl in Hm.
  - now rewrite Hk.
  - exact Hm.
Qed.

Lemma silent_try_except {A} (m : M W A) (h : exn -> M W A) :
  silent m -> (forall e, silent (h e)) -> silent (try_except m h).
Proof.
  intros Hm Hh st. unfold try_except. specialize (Hm st).
  destruct (m st) as [[a|e] st1]; simpl in Hm.
  - exact Hm.
  - now rewrite Hh.
Qed.

Lemma silent_for_each {A B} (f : A -> M W B) (xs : list A) :
  (forall x, silent (f x)) -> silent (for_each f xs).
Proof.
  intro Hf. induction xs as [|x xs IH]; simpl.
  - apply silent_ret.
  - apply silent_bind; [apply Hf|]. intro y.
    apply silent_bind; [exact IH|]. intro ys. apply silent_ret.
Qed.

End MonadFacts.

Create HintDb silent.
#[export] Hint Resolve silent_ret silent_raise silent_lift silent_log
  silent_call_client silent_for_each : silent.

Ltac silent_step :=
  first [ apply silent_bind; [| intro ]
        | apply silent_try_except; [| intro ]
        | match goal with |- silent (if ?b then _ else _) => destruct b end
        | progress cbv zeta
        | solve [ auto with silent ] ].

(** ** [query_bigquery]: the query handed to the client *)

Section QueryFacts.
Context {W : Type}.
Variable rt : Runtime.
Variable cl : Client W.

Lemma query_bigquery_try_calls (q : string) (limit : pyval) (st : store W) :
  calls (snd (query_bigquery_try rt cl (PStr q) limit st)) =
  (calls st ++ [CQuery (final_query rt q limit)])%list.
Proof.
  unfold query_bigquery_try, final_query, bind, lift, call_client, ret. simpl.
  destruct (negb (str_contains "LIMIT" (str_upper rt q)) && py_truthy limit);
    match goal with
    | |- context [cl_query cl ?x ?w] => destruct (cl_query cl x w) as [[rows|e] w1]
    end; reflexivity.
Qed.

(** A string query is run exactly once, as [final_query] gives it. *)
Lemma query_bigquery_calls (d : list (string * pyval)) (q : string) (st : store W) :
  dict_get d "query" (PStr "") = PStr q ->
  calls (snd (query_bigquery rt cl (PDict d) st)) =
  (calls st ++ [CQuery (final_query rt q (dict_get d "limit" (PInt 100)))])%list.
Proof.
  intro Hq. unfold query_bigquery, bind, lift. simpl. rewrite Hq.
  rewrite <- query_bigquery_try_calls. unfold try_except.
  destruct (query_bigquery_try rt cl (PStr q) _ st) as [[r|e] st1]; reflexivity.
Qed.

(** C1, as amended.  For a string query [q] (the ['query'] argument, or
    the empty string when it is absent) and [limit] the ['limit'] argument
    (100 when absent): when the upper-cased [q] does not contain [LIMIT]
    and [limit] is truthy, the client is asked to run [q] followed by
    [ LIMIT <limit>]; when the upper-cased [q] contains [LIMIT], the
    client is asked to run [q] as it is.  In both cases it is the one
    query the call runs. *)
Theorem query_limit_policy (d : list (string * pyval)) (q : string) (st : store W) :
  dict_get d "query" (PStr "") = PStr q ->
  let limit := dict_get d "limit" (PInt 100) in
  let st' := snd (query_bigquery rt cl (PDict d) st) in
  (str_contains "LIMIT" (str_upper rt q) = false ->
   py_truthy limit = true ->
   calls st' = (calls st ++ [CQuery (PStr (q ++ " LIMIT " ++ py_str rt limit))])%list)
  /\ (str_contains "LIMIT" (str_upper rt q) = true ->
      calls st' = (calls st ++ [CQuery (PStr q)])%list).
Proof.
  intros Hq limit st'. subst st'. rewrite (query_bigquery_calls d q st Hq).
  fold limit. unfold final_query. split.
  - intros Hno Htruthy. now rewrite Hno, Htruthy.
  - intro Hyes. now rewrite Hyes.
Qed.

(** C9, as amended.  When the query (the ['query'] argument, or the
    empty string when it is absent) is a string and the ['limit']
    argument is present and falsy, the query is run exactly as supplied,
    whether or not it mentions [LIMIT]. *)
Theorem falsy_limit_runs_query_unchanged
    (d : list (string * pyval)) (q : string) (limit : pyval) (st : store W) :
  dict_get d "query" (PStr "") = PStr q ->
  dict_lookup d "limit" = Some limit ->
  py_truthy limit = false ->
  calls (snd (query_bigquery rt cl (PDict d) st)) =
  (calls st ++ [CQuery (PStr q)])%list.
Proof.
  intros Hq Hlimit Hfalsy. rewrite (query_bigquery_calls d q st Hq).
  unfold dict_get. rewrite Hlimit. unfold final_query.
  rewrite Hfalsy, andb_false_r. reflexivity.
Qed.

End QueryFacts.

(** C1, as stated, fails on [{'query': 'SELECT 1', 'limit': 0}]: the
    query has no [LIMIT], yet [SELECT 1] is run and not [SELECT 1 LIMIT 0]. *)
Lemma limit_zero_not_appended :
  ~ limit_appended_whenever_absent Demo.rt Demo.client
      [("query", PStr "SELECT 1"); ("limit", PInt 0)] Demo.st0.
Proof.
  intro H. specialize (H "SELECT 1" eq_refl). vm_compute in H. discriminate H.
Qed.

Lemma query_limit_policy_witness :
  calls (snd (query_bigquery Demo.rt Demo.client
                (PDict [("query", PStr "SELECT 1")]) Demo.st0))
  = [CQuery (PStr "SELECT 1 LIMIT 100")]
  /\ calls (snd (query_bigquery Demo.rt Demo.client
                   (PDict [("query", PStr "SELECT 1 LIMIT 5")]) Demo.st0))
     = [CQuery (PStr "SELECT 1 LIMIT 5")].
Proof.
  split.
  - apply (query_limit_policy Demo.rt Demo.client
             [("query", PStr "SELECT 1")] "SELECT 1" Demo.st0 eq_refl);
      reflexivity.
  - apply (query_limit_policy Demo.rt Demo.client
             [("query", PStr "SELECT 1 LIMIT 5")] "SELECT 1 LIMIT 5" Demo.st0 eq_refl);
      reflexivity.
Defined.

(** C9, as stated, fails on [{'query': 5, 'limit': 0}]: the query is no
    string, [query.upper()] faults, and nothing is run at all. *)
Lemma falsy_limit_query_not_text :
  ~ falsy_limit_runs_as_supplied Demo.rt Demo.client
      [("query", PInt 5); ("limit", PInt 0)] Demo.st0.
Proof.
  intro H. specialize (H (PInt 0) eq_refl eq_refl). vm_compute in H. discriminate H.
Qed.

Lemma falsy_limit_witness :
  calls (snd (query_bigquery Demo.rt Demo.client
                (PDict [("query", PStr "SELECT 1"); ("limit", PInt 0)]) Demo.st0))
  = [CQuery (PStr "SELECT 1")].
Proof.
  apply (falsy_limit_runs_query_unchanged Demo.rt Demo.client
           [("query", PStr "SELECT 1"); ("limit", PInt 0)] "SELECT 1" (PInt 0) Demo.st0);
    reflexivity.
Defined.

(** ** The tools: faults stay inside, defaults stand in for missing keys *)

Section ToolFacts.
Context {W : Type}.
Variable rt : Runtime.
Variable cl : Client W.

Lemma query_bigquery_try_envelope (query limit : pyval) (st : store W) r st1 :
  query_bigquery_try rt cl query limit st = (Ok r, st1) ->
  exists t, r = text_content t.
Proof.
  unfold query_bigquery_try, bind, lift, call_client, ret.
  destruct (py_upper rt query) as [u|e]; [|discriminate].
  match goal with
  | |- context [cl_query cl ?x ?w] => destruct (cl_query cl x w) as [[rows|e] w1]
  end; [|discriminate].
  intro H. injection H as <- _. eexists. reflexivity.
Qed.

Lemma dataset_record_run (dataset : DatasetListItem) (st : store W) :
  dataset_record cl dataset st =
  match cl_get_dataset cl (dli_dataset_id dataset) (world st) with
  | (Ok full, w) =>
      (Ok (extended_record dataset full),
       add_call (CGetDataset (dli_dataset_id dataset)) w st)
  | (Raise e, w) =>
      (Ok (reduced_record dataset e),
       add_call (CGetDataset (dli_dataset_id dataset)) w st)
  end.
Proof.
  unfold dataset_record, try_except, bind, call_client, ret.
  destruct (cl_get_dataset cl (dli_dataset_id dataset) (world st)) as [[full|e] w];
    reflexivity.
Qed.

(** The loop of [list_datasets_impl] never raises and appends one record
    per dataset. *)
Lemma for_each_dataset_record (datasets : list DatasetListItem) :
  forall st : store W,
  exists entries st',
    for_each (dataset_record cl) datasets st = (Ok entries, st')
    /\ entries_for cl datasets st entries st'
    /\ length entries = length datasets.
Proof.
  induction datasets as [|dataset rest IH]; intro st.
  - exists [], st. repeat split. constructor.
  - simpl for_each. unfold bind at 1. rewrite dataset_record_run.
    destruct (cl_get_dataset cl (dli_dataset_id dataset) (world st))
      as [[full|e] w] eqn:Efetch;
      match goal with
      | |- context [add_call ?c ?w ?st] =>
          destruct (IH (add_call c w st)) as (entries & st' & Hrun & Hrel & Hlen)
      end;
      unfold bind; rewrite Hrun; unfold ret.
    + exists (extended_record dataset full :: entries), st'.
      repeat split; [| simpl; now rewrite Hlen].
      now apply entries_fetched with (w := w).
    + exists (reduced_record dataset e :: entries), st'.
      repeat split; [| simpl; now rewrite Hlen].
      now apply entries_failed with (w := w).
Qed.

Lemma list_datasets_try_envelope (st : store W) r st1 :
  list_datasets_try rt cl st = (Ok r, st1) -> exists t, r = text_content t.
Proof.
  unfold list_datasets_try, bind, call_client, ret.
  destruct (cl_list_datasets cl (world st)) as [[datasets|e] w]; [|discriminate].
  destruct (for_each_dataset_record datasets (add_call CListDatasets w st))
    as (entries & st' & Hrun & _).
  rewrite Hrun. intro H. injection H as <- _. eexists. reflexivity.
Qed.

Lemma list_tables_try_envelope (dataset_id : pyval) (st : store W) r st1 :
  list_tables_try rt cl dataset_id st = (Ok r, st1) -> exists t, r = text_content t.
Proof.
  unfold list_tables_try, bind, call_client, ret.
  destruct (cl_dataset cl dataset_id (world st)) as [[ref|e] w]; [|discriminate].
  simpl world.
  destruct (cl_list_tables cl ref w) as [[tables|e] w1]; [|discriminate].
  intro H. injection H as <- _. eexists. reflexivity.
Qed.

Lemma describe_table_try_envelope (dataset_id table_id : pyval) (st : store W) r st1 :
  describe_table_try rt cl dataset_id table_id st = (Ok r, st1) ->
  exists t, r = text_content t.
Proof.
  unfold describe_table_try, bind, call_client, ret.
  destruct (cl_dataset cl dataset_id (world st)) as [[ref|e] w]; [|discriminate].
  simpl world.
  destruct (cl_table cl ref table_id w) as [[tref|e] w1]; [|discriminate].
  simpl world.
  destruct (cl_get_table cl tref w1) as [[table|e] w2]; [|discriminate].
  intro H. injection H as <- _. eexists. reflexivity.
Qed.

(** [call_tool] hands back what the tool returned. *)
Lemma call_tool_returns (name : string) (arguments : pyval) (tool : M W pyval)
    (st : store W) r st1 :
  (if py_eq_str (PStr name) "query_bigquery" then query_bigquery rt cl arguments
   else if py_eq_str (PStr name) "list_datasets" then list_datasets_impl rt cl
   else if py_eq_str (PStr name) "list_tables" then list_tables rt cl arguments
   else if py_eq_str (PStr name) "describe_table" then describe_table rt cl arguments
   else raise (Exn "ValueError" ("Strumento non trovato: " ++ py_str rt (PStr name))))
  = tool ->
  tool st = (Ok r, st1) ->
  call_tool rt cl (PStr name) arguments st = (Ok r, st1).
Proof.
  intros Hbranch Hrun. unfold call_tool. rewrite Hbranch.
  now apply try_except_ok.
Qed.

End ToolFacts.

Section ToolClaims.
Context {W : Type}.
Variable rt : Runtime.
Variable cl : Client W.

Lemma query_bigquery_dict (d : list (string * pyval)) (st : store W) :
  query_bigquery rt cl (PDict d) st =
  try_except
    (query_bigquery_try rt cl (dict_get d "query" (PStr ""))
       (dict_get d "limit" (PInt 100)))
    (fun e => ret (text_content ("Errore nell'esecuzione della query: " ++ exn_str e)))
    st.
Proof. reflexivity. Qed.

Lemma list_tables_dict (d : list (string * pyval)) (st : store W) :
  list_tables rt cl (PDict d) st =
  try_except
    (list_tables_try rt cl (dict_get d "dataset_id" PNone))
    (fun e => ret (text_content ("Errore nel recuperare le tabelle: " ++ exn_str e)))
    st.
Proof. reflexivity. Qed.

Lemma describe_table_dict (d : list (string * pyval)) (st : store W) :
  describe_table rt cl (PDict d) st =
  try_except
    (describe_table_try rt cl (dict_get d "dataset_id" PNone)
       (dict_get d "table_id" PNone))
    (fun e => ret (text_content ("Errore nel descrivere la tabella: " ++ exn_str e)))
    st.
Proof. reflexivity. Qed.

(** On a mapping of arguments (and, for [list_datasets], on any
    arguments) [call_tool] is the tool itself: the tool returns, so the
    handler of [call_tool] has nothing to log or raise again. *)
Lemma call_tool_query_bigquery (d : list (string * pyval)) (st : store W) :
  call_tool rt cl (PStr "query_bigquery") (PDict d) st
  = query_bigquery rt cl (PDict d) st.
Proof.
  destruct (guarded_envelope
              (query_bigquery_try rt cl (dict_get d "query" (PStr ""))
                 (dict_get d "limit" (PInt 100)))
              "Errore nell'esecuzione della query: " st
              (query_bigquery_try_envelope rt cl _ _ st))
    as (t & st' & Hrun & _).
  rewrite query_bigquery_dict, Hrun.
  apply call_tool_returns with (tool := query_bigquery rt cl (PDict d));
    [reflexivity|].
  now rewrite query_bigquery_dict.
Qed.

Lemma call_tool_list_datasets (arguments : pyval) (st : store W) :
  call_tool rt cl (PStr "list_datasets") arguments st = list_datasets_impl rt cl st.
Proof.
  destruct (guarded_envelope (list_datasets_try rt cl)
              "Errore nel recuperare i dataset: " st
              (list_datasets_try_envelope rt cl st))
    as (t & st' & Hrun & _).
  unfold list_datasets_impl at 1. rewrite Hrun.
  apply call_tool_returns with (tool := list_datasets_impl rt cl);
    [reflexivity|].
  exact Hrun.
Qed.

Lemma call_tool_list_tables (d : list (string * pyval)) (st : store W) :
  call_tool rt cl (PStr "list_tables") (PDict d) st = list_tables rt cl (PDict d) st.
Proof.
  destruct (guarded_envelope
              (list_tables_try rt cl (dict_get d "dataset_id" PNone))
              "Errore nel recuperare le tabelle: " st
              (list_tables_try_envelope rt cl _ st))
    as (t & st' & Hrun & _).
  rewrite list_tables_dict, Hrun.
  apply call_tool_returns with (tool := list_tables rt cl (PDict d));
    [reflexivity|].
  now rewrite list_tables_dict.
Qed.

Lemma call_tool_describe_table (d : list (string * pyval)) (st : store W) :
  call_tool rt cl (PStr "describe_table") (PDict d) st
  = describe_table rt cl (PDict d) st.
Proof.
  destruct (guarded_envelope
              (describe_table_try rt cl (dict_get d "dataset_id" PNone)
                 (dict_get d "table_id" PNone))
              "Errore nel descrivere la tabella: " st
              (describe_table_try_envelope rt cl _ _ st))
    as (t & st' & Hrun & _).
  rewrite describe_table_dict, Hrun.
  apply call_tool_returns with (tool := describe_table rt cl (PDict d));
    [reflexivity|].
  now rewrite describe_table_dict.
Qed.



End ToolClaims.


(** The fetch of a table that does not exist, end to end: a successful
    response whose text describes the error. *)
Example describe_missing_table :
  fst (handle_mcp_request Demo.rt Demo.client
         (Demo.tools_call 7 "describe_table"
            (PDict [("dataset_id", PStr "sales"); ("table_id", PStr "missing")]))
         Demo.st0)
  = Ok (rpc_result (PInt 7)
          (text_content "Errore nel descrivere la tabella: 404 Not found: Table")).
Proof. vm_compute. reflexivity. Qed.

Section MissingKeys.
Context {W : Type}.
Variable rt : Runtime.
Variable cl : Client W.

Lemma list_tables_first_call (d : list (string * pyval)) (st : store W) :
  exists rest,
    calls (snd (list_tables rt cl (PDict d) st))
    = (calls st ++ CDataset (dict_get d "dataset_id" PNone) :: rest)%list.
Proof.
  rewrite list_tables_dict.
  unfold try_except, list_tables_try, bind, call_client, ret.
  destruct (cl_dataset cl _ (world st)) as [[ref|e] w]; simpl.
  - destruct (cl_list_tables cl ref w) as [[tables|e] w1]; simpl;
      rewrite <- app_assoc; eexists; reflexivity.
  - eexists. reflexivity.
Qed.

Lemma describe_table_first_calls (d : list (string * pyval)) (st : store W) :
  exists rest,
    calls (snd (describe_table rt cl (PDict d) st))
    = (calls st ++ CDataset (dict_get d "dataset_id" PNone) :: rest)%list
    /\ forall ref w,
         cl_dataset cl (dict_get d "dataset_id" PNone) (world st) = (Ok ref, w) ->
         exists rest', rest = CTable ref (dict_get d "table_id" PNone) :: rest'.
Proof.
  rewrite describe_table_dict.
  unfold try_except, describe_table_try, bind, call_client, ret.
  destruct (cl_dataset cl _ (world st)) as [[ref|e] w]; simpl.
  - destruct (cl_table cl ref _ w) as [[tref|e] w1]; simpl.
    + destruct (cl_get_table cl tref w1) as [[table|e] w2]; simpl;
        rewrite <- !app_assoc; eexists; (split; [reflexivity|]);
        intros ref' w' H; injection H as <- <-; eexists; reflexivity.
    + rewrite <- !app_assoc; eexists; (split; [reflexivity|]).
      intros ref' w' H; injection H as <- <-; eexists; reflexivity.
  - eexists. split; [reflexivity|]. intros ref' w' H. discriminate H.
Qed.

(** C7, as amended.  The server makes no presence check on the arguments
    of a tool call.  A missing ['query'] is read as the empty string and a
    missing ['dataset_id'] or ['table_id'] as [None], and the call goes on
    to the warehouse client exactly as if the key had been supplied with
    that value: [query_bigquery] runs one query, [list_tables] and
    [describe_table] call [client.dataset(None)], and [describe_table]
    asks a dataset reference for the table [None]. *)
Theorem missing_keys_take_defaults (d : list (string * pyval)) (st : store W) :
  (dict_lookup d "query" = None ->
     call_tool rt cl (PStr "query_bigquery") (PDict d) st
     = call_tool rt cl (PStr "query_bigquery")
         (PDict (d ++ [("query", PStr "")])%list) st
     /\ exists q,
          calls (snd (call_tool rt cl (PStr "query_bigquery") (PDict d) st))
          = (calls st ++ [CQuery q])%list)
  /\ (dict_lookup d "dataset_id" = None ->
        call_tool rt cl (PStr "list_tables") (PDict d) st
        = call_tool rt cl (PStr "list_tables")
            (PDict (d ++ [("dataset_id", PNone)])%list) st
        /\ exists rest,
             calls (snd (call_tool rt cl (PStr "list_tables") (PDict d) st))
             = (calls st ++ CDataset PNone :: rest)%list)
  /\ (dict_lookup d "dataset_id" = None ->
        call_tool rt cl (PStr "describe_table") (PDict d) st
        = call_tool rt cl (PStr "describe_table")
            (PDict (d ++ [("dataset_id", PNone)])%list) st
        /\ exists rest,
             calls (snd (call_tool rt cl (PStr "describe_table") (PDict d) st))
             = (calls st ++ CDataset PNone :: rest)%list)
  /\ (dict_lookup d "table_id" = None ->
        call_tool rt cl (PStr "describe_table") (PDict d) st
        = call_tool rt cl (PStr "describe_table")
            (PDict (d ++ [("table_id", PNone)])%list) st
        /\ forall ref w,
             cl_dataset cl (dict_get d "dataset_id" PNone) (world st) = (Ok ref, w) ->
             exists rest,
               calls (snd (call_tool rt cl (PStr "describe_table") (PDict d) st))
               = (calls st ++ CDataset (dict_get d "dataset_id" PNone)
                    :: CTable ref PNone :: rest)%list).
Proof.
  split; [|split; [|split]]; intro Hmissing.
  - rewrite !call_tool_query_bigquery. split.
    + rewrite !query_bigquery_dict.
      rewrite (dict_get_app_default d "query" (PStr "") Hmissing "query" (PStr ""))
        by reflexivity.
      rewrite (dict_get_app_other d "query" "limit") by reflexivity.
      reflexivity.
    + eexists. apply query_bigquery_calls with (q := "").
      unfold dict_get. now rewrite Hmissing.
  - rewrite !call_tool_list_tables. split.
    + rewrite !list_tables_dict.
      rewrite (dict_get_app_default d "dataset_id" PNone Hmissing "dataset_id" PNone)
        by reflexivity.
      reflexivity.
    + destruct (list_tables_first_call d st) as [rest Hcalls].
      exists rest. rewrite Hcalls. unfold dict_get. now rewrite Hmissing.
  - rewrite !call_tool_describe_table. split.
    + rewrite !describe_table_dict.
      rewrite (dict_get_app_default d "dataset_id" PNone Hmissing "dataset_id" PNone)
        by reflexivity.
      rewrite (dict_get_app_other d "dataset_id" "table_id") by reflexivity.
      reflexivity.
    + destruct (describe_table_first_calls d st) as (rest & Hcalls & _).
      exists rest. rewrite Hcalls. unfold dict_get. now rewrite Hmissing.
  - rewrite !call_tool_describe_table. split.
    + rewrite !describe_table_dict.
      rewrite (dict_get_app_default d "table_id" PNone Hmissing "table_id" PNone)
        by reflexivity.
      rewrite (dict_get_app_other d "table_id" "dataset_id") by reflexivity.
      reflexivity.
    + intros ref w Hds.
      destruct (describe_table_first_calls d st) as (rest & Hcalls & Hnext).
      destruct (Hnext ref w Hds) as [rest' ->].
      exists rest'. rewrite Hcalls.
      replace (dict_get d "table_id" PNone) with PNone
        by (unfold dict_get; now rewrite Hmissing).
      reflexivity.
Qed.

End MissingKeys.

(** C7, as stated, fails on a [query_bigquery] call with no arguments at
    all: nothing checks for ['query'], and the client is asked to run the
    query [ LIMIT 100]. *)
Lemma missing_query_reaches_client :
  ~ presence_validated Demo.rt Demo.client "query_bigquery" [] Demo.st0
  /\ calls (snd (call_tool Demo.rt Demo.client (PStr "query_bigquery") (PDict [])
                   Demo.st0))
     = [CQuery (PStr " LIMIT 100")].
Proof.
  split.
  - intro H.
    assert (Hk : exists k, In k (required_keys "query_bigquery")
                           /\ dict_lookup [] k = None).
    { exists "query". split; [left|]; reflexivity. }
    specialize (H Hk). vm_compute in H. discriminate H.
  - vm_compute. reflexivity.
Qed.

Lemma missing_keys_witness :
  call_tool Demo.rt Demo.client (PStr "query_bigquery") (PDict []) Demo.st0
  = call_tool Demo.rt Demo.client (PStr "query_bigquery")
      (PDict [("query", PStr "")]) Demo.st0
  /\ exists rest,
       calls (snd (call_tool Demo.rt Demo.client (PStr "list_tables")
                     (PDict [("limit", PInt 5)]) Demo.st0))
       = CDataset PNone :: rest.
Proof.
  split.
  - apply (missing_keys_take_defaults Demo.rt Demo.client [] Demo.st0).
    reflexivity.
  - apply (missing_keys_take_defaults Demo.rt Demo.client [("limit", PInt 5)] Demo.st0).
    reflexivity.
Defined.

(** ** [list_datasets]: one record per dataset *)

Section DatasetFacts.
Context {W : Type}.
Variable rt : Runtime.
Variable cl : Client W.

(** C6.  When the client lists [datasets], [list_datasets_impl] returns
    (it does not raise) a text that counts and serialises one record per
    dataset, in order: the extended record, with location, creation time,
    description and labels, where the dataset's metadata fetch returned,
    and the reduced record, with an ['error'] field holding the fault's
    description, where the fetch raised. *)
Theorem list_datasets_one_record_each
    (datasets : list DatasetListItem) (w : W) (st : store W) :
  cl_list_datasets cl (world st) = (Ok datasets, w) ->
  exists entries st',
    list_datasets_impl rt cl st
    = (Ok (text_content
             ("Dataset trovati: " ++ int_str (Z.of_nat (length datasets))
              ++ nl ++ nl ++ json_dumps rt (Some 2) (PList entries))),
       st')
    /\ length entries = length datasets
    /\ entries_for cl datasets (add_call CListDatasets w st) entries st'
    /\ (forall dataset full,
          field (extended_record dataset full) "location"
            = Some (opt_str (ds_location full))
          /\ field (extended_record dataset full) "created"
             = Some (datetime_or_none (ds_created full))
          /\ field (extended_record dataset full) "description"
             = Some (PStr (or_default (ds_description full) "Nessuna descrizione"))
          /\ field (extended_record dataset full) "labels"
             = Some (PDict (map (fun '(k, v) => (k, PStr v)) (ds_labels full)))
          /\ has_field (extended_record dataset full) "error" = false)
    /\ (forall dataset e,
          field (reduced_record dataset e) "error"
            = Some (PStr ("Impossibile ottenere dettagli: " ++ exn_str e))
          /\ has_field (reduced_record dataset e) "location" = false).
Proof.
  intro Hlist.
  destruct (for_each_dataset_record cl datasets (add_call CListDatasets w st))
    as (entries & st' & Hrun & Hrel & Hlen).
  exists entries, st'. split; [|split; [exact Hlen|split; [exact Hrel|]]].
  - unfold list_datasets_impl, try_except, list_datasets_try, bind, call_client, ret.
    rewrite Hlist, Hrun, Hlen. reflexivity.
  - split; intros; repeat split.
Qed.

End DatasetFacts.

Lemma list_datasets_witness :
  exists entries st',
    list_datasets_impl Demo.rt Demo.client Demo.st0
    = (Ok (text_content
             ("Dataset trovati: 2" ++ nl ++ nl
              ++ json_dumps Demo.rt (Some 2) (PList entries))),
       st')
    /\ map (fun entry => has_field entry "error") entries = [false; true].
Proof.
  destruct (list_datasets_one_record_each Demo.rt Demo.client
              [ {| dli_dataset_id := "sales"; dli_project := "demo" |};
                {| dli_dataset_id := "vault"; dli_project := "demo" |} ]
              1 Demo.st0 eq_refl)
    as (entries & st' & Hrun & _ & Hrel & _).
  exists entries, st'. split; [exact Hrun|].
  inversion Hrel as [| ? ? ? ? ? ? ? Hf1 Hrest1 | ? ? ? ? ? ? ? Hf1 Hrest1]; subst;
    [| vm_compute in Hf1; discriminate Hf1].
  inversion Hrest1 as [| ? ? ? ? ? ? ? Hf2 Hrest2 | ? ? ? ? ? ? ? Hf2 Hrest2]; subst;
    [vm_compute in Hf2; discriminate Hf2 |].
  inversion Hrest2; subst. reflexivity.
Defined.

(** ** The dispatcher *)

Section DispatchFacts.
Context {W : Type}.
Variable rt : Runtime.
Variable cl : Client W.

(** What the [try] block of [handle_mcp_request] returns for a request
    object: a response with the request's id and either a result or the
    error -32601. *)
Lemma dispatch_request_returns (d : list (string * pyval)) (st : store W) r st1 :
  dispatch_request rt cl (PDict d) st = (Ok r, st1) ->
  (exists result, r = rpc_result (dict_get d "id" PNone) result)
  \/ r = rpc_error (dict_get d "id" PNone) (-32601)
           ("Metodo non trovato: " ++ py_str rt (dict_get d "method" PNone)).
Proof.
  unfold dispatch_request, bind, lift, log, ret. simpl py_get. cbv iota beta.
  destruct (py_eq_str (dict_get d "method" PNone) "initialize").
  { intro H. injection H as <- _. left. eexists. reflexivity. }
  destruct (py_eq_str (dict_get d "method" PNone) "tools/list").
  { intro H. injection H as <- _. left. eexists. reflexivity. }
  destruct (py_eq_str (dict_get d "method" PNone) "tools/call").
  - destruct (py_get (dict_get d "params" (PDict [])) "name" PNone) as [name|e];
      [|discriminate].
    destruct (py_get (dict_get d "params" (PDict [])) "arguments" (PDict []))
      as [arguments|e]; [|discriminate].
    destruct (call_tool rt cl name arguments _) as [[result|e] st2]; [|discriminate].
    intro H. injection H as <- _. left. eexists. reflexivity.
  - intro H. injection H as <- _. right. reflexivity.
Qed.

(** A request with none of the three methods: the [try] block logs the
    request and returns the error -32601. *)
Lemma dispatch_unknown_method (d : list (string * pyval)) (st : store W) :
  py_eq_str (dict_get d "method" PNone) "initialize" = false ->
  py_eq_str (dict_get d "method" PNone) "tools/list" = false ->
  py_eq_str (dict_get d "method" PNone) "tools/call" = false ->
  dispatch_request rt cl (PDict d) st
  = (Ok (rpc_error (dict_get d "id" PNone) (-32601)
           ("Metodo non trovato: " ++ py_str rt (dict_get d "method" PNone))),
     add_log INFO ("Ricevuta richiesta MCP: " ++ py_str rt (dict_get d "method" PNone)) st).
Proof.
  intros H1 H2 H3.
  unfold dispatch_request, bind, lift, log, ret. simpl py_get. cbv iota beta.
  now rewrite H1, H2, H3.
Qed.

(** C3.  A request whose method is none of [initialize], [tools/list] and
    [tools/call] is answered with a response that has no ['result'], whose
    ['error'] has code -32601 and a message naming the method, and whose
    ['id'] is the request's id. *)
Theorem unknown_method_is_rejected (d : list (string * pyval)) (st : store W) :
  let method := dict_get d "method" PNone in
  method <> PStr "initialize" ->
  method <> PStr "tools/list" ->
  method <> PStr "tools/call" ->
  exists response,
    handle_mcp_request rt cl (PDict d) st
    = (Ok response, add_log INFO ("Ricevuta richiesta MCP: " ++ py_str rt method) st)
    /\ has_field response "result" = false
    /\ field response "error"
       = Some (PDict [("code", PInt (-32601));
                      ("message", PStr ("Metodo non trovato: " ++ py_str rt method))])
    /\ field response "id" = Some (dict_get d "id" PNone).
Proof.
  intros method H1 H2 H3. subst method.
  apply py_eq_str_false in H1, H2, H3.
  eexists. split.
  - unfold handle_mcp_request.
    apply try_except_ok, dispatch_unknown_method; assumption.
  - repeat split.
Qed.

(** C5.  A [tools/list] request, whatever its params, is answered with the
    four static descriptors, named [query_bigquery], [list_datasets],
    [list_tables], [describe_table] and requiring [query], nothing,
    [dataset_id], and [dataset_id] with [table_id].  The warehouse, the
    trace of client calls and the event stream are left as they were; the
    handler only logs the request. *)
Theorem tools_list_is_static (d : list (string * pyval)) (st : store W) :
  dict_get d "method" PNone = PStr "tools/list" ->
  exists st',
    handle_mcp_request rt cl (PDict d) st
    = (Ok (rpc_result (dict_get d "id" PNone)
             (PDict [("tools", PList tool_descriptors)])),
       st')
    /\ map descriptor_name tool_descriptors
       = [PStr "query_bigquery"; PStr "list_datasets";
          PStr "list_tables"; PStr "describe_table"]
    /\ map descriptor_required tool_descriptors
       = [PList [PStr "query"]; PList [];
          PList [PStr "dataset_id"]; PList [PStr "dataset_id"; PStr "table_id"]]
    /\ st' = add_log INFO "Ricevuta richiesta MCP: tools/list" st
    /\ world st' = world st /\ calls st' = calls st /\ sent st' = sent st.
Proof.
  intro Hmethod. eexists. split; [|repeat split].
  unfold handle_mcp_request, try_except, dispatch_request, bind, lift, log, ret.
  simpl py_get. cbv iota beta. rewrite Hmethod. reflexivity.
Qed.

(** C4.  Every request object is answered (nothing is raised) with a
    response that has exactly one of ['result'] and ['error'] and whose
    ['id'] is the request's id, or [None] when the request has none.  A
    fault raised during dispatch is caught at the top level and answered
    with the error -32603 carrying the fault's description. *)
Theorem response_has_result_xor_error (d : list (string * pyval)) (st : store W) :
  exists response st',
    handle_mcp_request rt cl (PDict d) st = (Ok response, st')
    /\ xorb (has_field response "result") (has_field response "error") = true
    /\ field response "id" = Some (dict_get d "id" PNone)
    /\ (dict_lookup d "id" = None -> field response "id" = Some PNone)
    /\ (forall e st1,
          dispatch_request rt cl (PDict d) st = (Raise e, st1) ->
          response = rpc_error (dict_get d "id" PNone) (-32603)
                       ("Errore interno del server: " ++ exn_str e)
          /\ st' = add_log ERROR
                     ("Errore nella gestione della richiesta: " ++ exn_str e) st1).
Proof.
  unfold handle_mcp_request, try_except.
  destruct (dispatch_request rt cl (PDict d) st) as [[r|e] st1] eqn:Erun.
  - exists r, st1. split; [reflexivity|].
    destruct (dispatch_request_returns d st r st1 Erun) as [[result ->] | ->];
      (split; [reflexivity|]); (split; [reflexivity|]);
      (split; [| intros e st2 H; discriminate H]);
      intro Hid; unfold dict_get; now rewrite Hid.
  - eexists. eexists. split; [reflexivity|].
    split; [reflexivity|]. split; [reflexivity|]. split.
    + intro Hid. unfold dict_get. now rewrite Hid.
    + intros e' st2 H. injection H as <- <-. now split.
Qed.

End DispatchFacts.

Lemma unknown_method_witness :
  exists response,
    fst (handle_mcp_request Demo.rt Demo.client
           (PDict [("jsonrpc", PStr "2.0"); ("id", PInt 3); ("method", PStr "foo/bar")])
           Demo.st0) = Ok response
    /\ has_field response "result" = false
    /\ field response "error"
       = Some (PDict [("code", PInt (-32601));
                      ("message", PStr "Metodo non trovato: foo/bar")])
    /\ field response "id" = Some (PInt 3).
Proof.
  destruct (unknown_method_is_rejected Demo.rt Demo.client
              [("jsonrpc", PStr "2.0"); ("id", PInt 3); ("method", PStr "foo/bar")]
              Demo.st0)
    as (response & Hrun & Hres & Herr & Hid); try discriminate.
  exists response. rewrite Hrun. repeat split; assumption.
Defined.

Lemma tools_list_witness :
  fst (handle_mcp_request Demo.rt Demo.client
         (PDict [("id", PStr "a"); ("method", PStr "tools/list");
                 ("params", PList [PInt 1])])
         Demo.st0)
  = Ok (rpc_result (PStr "a") (PDict [("tools", PList tool_descriptors)])).
Proof.
  destruct (tools_list_is_static Demo.rt Demo.client
              [("id", PStr "a"); ("method", PStr "tools/list");
               ("params", PList [PInt 1])]
              Demo.st0 eq_refl)
    as (st' & Hrun & _).
  rewrite Hrun. reflexivity.
Defined.

(** An unknown tool, a fault of dispatch: the error -32603 with the
    request's id. *)
Example unknown_tool_is_internal_error :
  fst (handle_mcp_request Demo.rt Demo.client
         (Demo.tools_call 9 "drop_table" (PDict [])) Demo.st0)
  = Ok (rpc_error (PInt 9) (-32603)
          "Errore interno del server: Strumento non trovato: drop_table").
Proof. vm_compute. reflexivity. Qed.

(** ** The event stream *)

Section StreamFacts.
Context {W : Type}.
Variable rt : Runtime.
Variable cl : Client W.

Lemma silent_dataset_record (dataset : DatasetListItem) :
  silent (dataset_record cl dataset).
Proof. unfold dataset_record. repeat silent_step. Qed.

Lemma silent_query_bigquery (args : pyval) : silent (query_bigquery rt cl args).
Proof. unfold query_bigquery, query_bigquery_try. repeat silent_step. Qed.

Lemma silent_list_datasets_impl : silent (list_datasets_impl rt cl).
Proof.
  unfold list_datasets_impl, list_datasets_try.
  repeat silent_step. apply silent_for_each, silent_dataset_record.
Qed.

Lemma silent_list_tables (args : pyval) : silent (list_tables rt cl args).
Proof. unfold list_tables, list_tables_try. repeat silent_step. Qed.

Lemma silent_describe_table (args : pyval) : silent (describe_table rt cl args).
Proof. unfold describe_table, describe_table_try. repeat silent_step. Qed.

Lemma silent_call_tool (name arguments : pyval) :
  silent (call_tool rt cl name arguments).
Proof.
  unfold call_tool.
  apply silent_try_except; [| intro; repeat silent_step].
  repeat match goal with
         | |- silent (if ?b then _ else _) => destruct b
         end;
    auto using silent_query_bigquery, silent_list_datasets_impl,
      silent_list_tables, silent_describe_table with silent.
Qed.

(** The dispatcher yields no frame: only the event stream does. *)
Lemma silent_handle_mcp_request (request : pyval) :
  silent (handle_mcp_request rt cl request).
Proof.
  unfold handle_mcp_request, dispatch_request.
  apply silent_try_except; [| intro; repeat silent_step].
  do 4 (apply silent_bind; [auto with silent | intro]).
  repeat match goal with
         | |- silent (if ?b then _ else _) => destruct b
         end; auto with silent.
  do 2 (apply silent_bind; [auto with silent | intro]).
  apply silent_bind; [apply silent_call_tool | intro]. auto with silent.
Qed.

(** A request that is not an object faults at its first lookup, and again
    in the handler's lookup of the id: [handle_mcp_request] raises. *)
Lemma handle_mcp_request_not_object (v : pyval) (st : store W) :
  (forall d, v <> PDict d) ->
  handle_mcp_request rt cl v st
  = (Raise (attribute_error v "get"),
     add_log ERROR
       ("Errore nella gestione della richiesta: "
        ++ exn_str (attribute_error v "get")) st).
Proof.
  intro Hv. destruct v; try reflexivity. now destruct (Hv d).
Qed.

(** A request object is always answered. *)
Lemma handle_mcp_request_object (d : list (string * pyval)) (st : store W) :
  exists response st1,
    handle_mcp_request rt cl (PDict d) st = (Ok response, st1).
Proof.
  unfold handle_mcp_request, try_except.
  destruct (dispatch_request rt cl (PDict d) st) as [[r|e] st1];
    eexists; eexists; reflexivity.
Qed.

(** A fault of dispatch on a request object is answered under the
    request's id. *)
Lemma handle_mcp_request_fault (d : list (string * pyval)) (st : store W) e st1 :
  dispatch_request rt cl (PDict d) st = (Raise e, st1) ->
  handle_mcp_request rt cl (PDict d) st
  = (Ok (rpc_error (dict_get d "id" PNone) (-32603)
           ("Errore interno del server: " ++ exn_str e)),
     add_log ERROR ("Errore nella gestione della richiesta: " ++ exn_str e) st1).
Proof.
  intro Hrun. unfold handle_mcp_request, try_except. now rewrite Hrun.
Qed.

(** One run of the generator once the read of the body has returned or
    raised, case by case. *)
Lemma event_stream_resumed (request : Request) (read : outcome string) (st : store W) :
  req_body request = Resumed read ->
  event_stream rt cl request st =
  match read with
  | Raise e =>
      (Resumed (Ok tt),
       add_frame (sse_error_frame rt e)
         (add_log ERROR ("Errore nel flusso SSE: " ++ exn_str e) st))
  | Ok body =>
      if String.eqb body "" then
        (Resumed (Ok tt),
         add_frame
           (sse_frame (json_dumps rt None (PDict [("type", PStr "connected")]))) st)
      else
        match bytes_decode rt body with
        | Raise e =>
            (Resumed (Ok tt),
             add_frame (sse_error_frame rt e)
               (add_log ERROR ("Errore nel flusso SSE: " ++ exn_str e) st))
        | Ok text =>
            match json_loads rt text with
            | Raise e =>
                (Resumed (Ok tt),
                 add_frame (sse_error_frame rt e)
                   (add_log ERROR ("Errore nel flusso SSE: " ++ exn_str e) st))
            | Ok mcp_request =>
                match handle_mcp_request rt cl mcp_request st with
                | (Ok response, st1) =>
                    (Resumed (Ok tt),
                     add_frame (sse_frame (json_dumps rt None response)) st1)
                | (Raise e, st1) =>
                    (Resumed (Ok tt),
                     add_frame (sse_error_frame rt e)
                       (add_log ERROR ("Errore nel flusso SSE: " ++ exn_str e) st1))
                end
            end
        end
  end.
Proof.
  intro Hread. unfold event_stream. rewrite Hread.
  unfold try_except, bind at 1, lift at 1.
  destruct read as [body|e]; [|reflexivity].
  unfold event_stream_try.
  destruct (String.eqb body ""); cbv beta iota delta [negb]; [reflexivity|].
  unfold bind, lift. cbv beta.
  destruct (bytes_decode rt body) as [text|e]; [|reflexivity].
  destruct (json_loads rt text) as [v|e]; [|reflexivity].
  destruct (handle_mcp_request rt cl v st) as [[response|e] st1]; reflexivity.
Qed.


(** C10, as amended.  When the read of the body returns or raises, the
    stream of [sse_endpoint] ends normally after yielding exactly one
    frame.  A fault of the read, a body that cannot be decoded or parsed
    and a body that parses to a value that is not an object give the
    frame that carries the JSON-RPC error -32603 with id [None] and the
    fault's description; a request object whose dispatch faults gives
    the frame that carries the error -32603 under the request's own
    id. *)
Theorem sse_sends_exactly_one_frame
    (request : Request) (read : outcome string) (st : store W) :
  req_body request = Resumed read ->
  exists frame st',
    content (sse_endpoint rt cl request) st = (Resumed (Ok tt), st')
    /\ sent st' = (sent st ++ [frame])%list
    /\ (forall e, read = Raise e -> frame = sse_error_frame rt e)
    /\ (forall body,
          read = Ok body -> body <> "" ->
          (forall e, bytes_decode rt body = Raise e ->
             frame = sse_error_frame rt e)
          /\ (forall text e,
                bytes_decode rt body = Ok text -> json_loads rt text = Raise e ->
                frame = sse_error_frame rt e)
          /\ (forall text v,
                bytes_decode rt body = Ok text -> json_loads rt text = Ok v ->
                (forall d, v <> PDict d) ->
                frame = sse_error_frame rt (attribute_error v "get"))
          /\ (forall text d e st1,
                bytes_decode rt body = Ok text ->
                json_loads rt text = Ok (PDict d) ->
                dispatch_request rt cl (PDict d) st = (Raise e, st1) ->
                frame = sse_frame
                          (json_dumps rt None
                             (rpc_error (dict_get d "id" PNone) (-32603)
                                ("Errore interno del server: " ++ exn_str e))))).
Proof.
  intro Hread.
  unfold sse_endpoint, content. rewrite (event_stream_resumed request read st Hread).
  destruct read as [body|e].
  2:{ eexists. eexists. split; [reflexivity|]. split; [reflexivity|]. split.
      - intros e' H. now inversion H.
      - intros body H. discriminate H. }
  destruct (String.eqb body "") eqn:Ebody.
  { apply String.eqb_eq in Ebody. eexists. eexists.
    split; [reflexivity|]. split; [reflexivity|]. split.
    - intros e H. discriminate H.
    - intros body' H Hne. inversion H; subst body'. now destruct Hne. }
  destruct (bytes_decode rt body) as [text|e] eqn:Edecode.
  2:{ eexists. eexists. split; [reflexivity|]. split; [reflexivity|]. split.
      - intros e' H. discriminate H.
      - intros body' H _. inversion H; subst body'. rewrite Edecode.
        split; [|split; [|split]].
        + intros e' H'. now inversion H'.
        + intros text e' H'. discriminate H'.
        + intros text v H'. discriminate H'.
        + intros text d e' st1 H'. discriminate H'. }
  destruct (json_loads rt text) as [v|e] eqn:Eloads.
  2:{ eexists. eexists. split; [reflexivity|]. split; [reflexivity|]. split.
      - intros e' H. discriminate H.
      - intros body' H _. inversion H; subst body'. rewrite Edecode.
        split; [|split; [|split]].
        + intros e' H'. discriminate H'.
        + intros text' e' H' H''. inversion H'; subst text'.
          rewrite Eloads in H''. now inversion H''.
        + intros text' v H' H''. inversion H'; subst text'.
          rewrite Eloads in H''. discriminate H''.
        + intros text' d e' st1 H' H''. inversion H'; subst text'.
          rewrite Eloads in H''. discriminate H''. }
  pose proof (silent_handle_mcp_request v st) as Hsilent.
  destruct (handle_mcp_request rt cl v st) as [[response|e] st1] eqn:Erun;
    simpl in Hsilent;
    (eexists; eexists; split; [reflexivity|];
     split; [simpl; now rewrite Hsilent|];
     split; [intros e' H; discriminate H|];
     intros body' H _; inversion H; subst body'; rewrite Edecode;
     split; [|split; [|split]];
     [ intros e' H'; discriminate H'
     | intros text' e' H' H''; inversion H'; subst text';
       rewrite Eloads in H''; discriminate H''
     | intros text' v' H' H'' Hv; inversion H'; subst text';
       rewrite Eloads in H''; inversion H''; subst v';
       rewrite (handle_mcp_request_not_object v st Hv) in Erun
     | intros text' d e' st2 H' H'' Hfault; inversion H'; subst text';
       rewrite Eloads in H''; inversion H''; subst v;
       rewrite (handle_mcp_request_fault d st e' st2 Hfault) in Erun ]).
  - discriminate Erun.
  - now inversion Erun.
  - now inversion Erun.
  - discriminate Erun.
Qed.

End StreamFacts.



(** The frame of the keep-alive probe, as text. *)
Example empty_body_frame :
  sent (snd (content (sse_endpoint Demo.rt Demo.client (Wire.delivered "")) Demo.st0))
  = ["data: {" ++ Demo.dq ++ "type" ++ Demo.dq ++ ": "
     ++ Demo.dq ++ "connected" ++ Demo.dq ++ "}" ++ nl ++ nl].
Proof. vm_compute. reflexivity. Qed.

(** A body that parses to a list: one frame, the error -32603 with a null
    id, and two records in the log. *)
Example list_body_frame :
  let st' := snd (content (sse_endpoint (Demo.runtime [("[1]", PList [PInt 1])])
                             Demo.client (Wire.delivered "[1]")) Demo.st0) in
  sent st'
  = ["data: {" ++ Demo.dq ++ "jsonrpc" ++ Demo.dq ++ ": " ++ Demo.dq ++ "2.0" ++ Demo.dq
     ++ ", " ++ Demo.dq ++ "id" ++ Demo.dq ++ ": null, "
     ++ Demo.dq ++ "error" ++ Demo.dq ++ ": {" ++ Demo.dq ++ "code" ++ Demo.dq
     ++ ": -32603, " ++ Demo.dq ++ "message" ++ Demo.dq ++ ": " ++ Demo.dq
     ++ "Errore del server SSE: 'list' object has no attribute 'get'"
     ++ Demo.dq ++ "}}" ++ nl ++ nl]
  /\ length (logs st') = 2.
Proof. vm_compute. split; reflexivity. Qed.

(** A fault of dispatch on a request object is answered inside the frame
    with the request's own id. *)
Example unknown_tool_frame_keeps_id :
  let request := Demo.tools_call 9 "drop_table" (PDict []) in
  sent (snd (content (sse_endpoint (Wire.runtime_for request) Demo.client
                        (Wire.delivered (Wire.text_of request))) Demo.st0))
  = [sse_frame
       (json_dumps Demo.rt None
          (rpc_error (PInt 9) (-32603)
             "Errore interno del server: Strumento non trovato: drop_table"))].
Proof. vm_compute. reflexivity. Qed.

(** C10, as stated, fails twice.  A POST whose body read is abandoned
    gets no frame at all; and a request object that names an unknown
    tool gets the error -32603 under its own id 9, not under a null
    id. *)
Lemma no_frame_or_own_id :
  ~ one_frame_null_id_on_fault Demo.rt Demo.client (Wire.stalled "") Demo.st0
  /\ ~ one_frame_null_id_on_fault
         (Wire.runtime_for (Demo.tools_call 9 "drop_table" (PDict [])))
         Demo.client
         (Wire.delivered (Wire.text_of (Demo.tools_call 9 "drop_table" (PDict []))))
         Demo.st0.
Proof.
  split; intros (frame & Hsent & Hnull).
  - vm_compute in Hsent. discriminate Hsent.
  - assert (Hframe : frame
                     = sse_frame
                         (json_dumps
                            (Wire.runtime_for (Demo.tools_call 9 "drop_table" (PDict [])))
                            None
                            (rpc_error (PInt 9) (-32603)
                               "Errore interno del server: Strumento non trovato: drop_table"))).
    { vm_compute in Hsent. injection Hsent as <-. vm_compute. reflexivity. }
    specialize (Hnull _ _ Hframe). discriminate Hnull.
Qed.

Lemma sse_one_frame_witness :
  exists st',
    content (sse_endpoint Demo.rt Demo.client (Wire.delivered "oops")) Demo.st0
    = (Resumed (Ok tt), st')
    /\ sent st'
       = [sse_error_frame Demo.rt
            (Exn "JSONDecodeError" "Expecting value: line 1 column 1 (char 0)")].
Proof.
  destruct (sse_sends_exactly_one_frame Demo.rt Demo.client
              (Wire.delivered "oops") (Ok "oops") Demo.st0 eq_refl)
    as (frame & st' & Hrun & Hsent & _ & Hfault).
  exists st'. split; [exact Hrun|].
  rewrite Hsent. change (sent Demo.st0) with (@nil string).
  rewrite app_nil_l. f_equal.
  assert (Hbody : "oops" <> "") by discriminate.
  destruct (Hfault "oops" eq_refl Hbody) as (_ & Hparse & _).
  apply (Hparse "oops"); reflexivity.
Defined.

(** * Further properties of the code *)

(** ** The dispatcher: which requests reach the warehouse *)

Section DispatchEdges.
Context {W : Type}.
Variable rt : Runtime.
Variable cl : Client W.

(** How a [tools/call] request with a mapping of params is answered,
    from what [call_tool] does. *)
Lemma handle_tools_call (d params : list (string * pyval)) (st : store W) :
  dict_get d "method" PNone = PStr "tools/call" ->
  dict_get d "params" (PDict []) = PDict params ->
  handle_mcp_request rt cl (PDict d) st =
  match call_tool rt cl (dict_get params "name" PNone)
          (dict_get params "arguments" (PDict []))
          (add_log INFO "Ricevuta richiesta MCP: tools/call" st) with
  | (Ok result, st1) => (Ok (rpc_result (dict_get d "id" PNone) result), st1)
  | (Raise e, st1) =>
      (Ok (rpc_error (dict_get d "id" PNone) (-32603)
             ("Errore interno del server: " ++ exn_str e)),
       add_log ERROR ("Errore nella gestione della richiesta: " ++ exn_str e) st1)
  end.
Proof.
  intros Hmethod Hparams.
  unfold handle_mcp_request, try_except, dispatch_request, bind, lift, log, ret.
  simpl py_get. cbv iota beta. rewrite Hmethod, Hparams. simpl.
  destruct (call_tool rt cl _ _ _) as [[result|e] st1]; reflexivity.
Qed.

(** X1.  A request object whose method is not [tools/call] is answered
    without a call on the client: the warehouse, the trace of client
    calls and the event stream are as before, and the one effect is the
    log record of the request. *)
Theorem only_tools_call_reaches_warehouse (d : list (string * pyval)) (st : store W) :
  dict_get d "method" PNone <> PStr "tools/call" ->
  exists response st',
    handle_mcp_request rt cl (PDict d) st = (Ok response, st')
    /\ st' = add_log INFO
               ("Ricevuta richiesta MCP: " ++ py_str rt (dict_get d "method" PNone)) st
    /\ world st' = world st /\ calls st' = calls st /\ sent st' = sent st.
Proof.
  intro Hmethod. apply py_eq_str_false in Hmethod.
  unfold handle_mcp_request, try_except, dispatch_request, bind, lift, log, ret.
  simpl py_get. cbv iota beta. rewrite Hmethod.
  destruct (py_eq_str (dict_get d "method" PNone) "initialize");
    [| destruct (py_eq_str (dict_get d "method" PNone) "tools/list")];
    eexists; eexists; (split; [reflexivity|]); repeat split.
Qed.

(** X2.  An [initialize] request, whatever its params, is answered with
    the protocol version [2024-11-05], an empty [tools] capability and
    the server's name and version, under the request's id. *)
Theorem initialize_is_static (d : list (string * pyval)) (st : store W) :
  dict_get d "method" PNone = PStr "initialize" ->
  exists result,
    fst (handle_mcp_request rt cl (PDict d) st)
    = Ok (rpc_result (dict_get d "id" PNone) result)
    /\ field result "protocolVersion" = Some (PStr "2024-11-05")
    /\ field result "capabilities" = Some (PDict [("tools", PDict [])])
    /\ field result "serverInfo"
       = Some (PDict [("name", PStr "bigquery-mcp-server");
                      ("version", PStr "1.0.0")]).
Proof.
  intro Hmethod.
  unfold handle_mcp_request, try_except, dispatch_request, bind, lift, log, ret.
  simpl py_get. cbv iota beta. rewrite Hmethod. simpl.
  eexists. split; [reflexivity|]. repeat split.
Qed.

(** [call_tool] on a name that is none of the four tools. *)
Lemma call_tool_unknown (name arguments : pyval) (st : store W) :
  (forall n, In n tool_names -> name <> PStr n) ->
  call_tool rt cl name arguments st
  = (Raise (Exn "ValueError" ("Strumento non trovato: " ++ py_str rt name)),
     add_log ERROR
       ("Errore nell'esecuzione dello strumento " ++ py_str rt name ++ ": "
        ++ "Strumento non trovato: " ++ py_str rt name) st).
Proof.
  intro Hname.
  assert (H1 : py_eq_str name "query_bigquery" = false)
    by (apply py_eq_str_false, Hname; simpl; tauto).
  assert (H2 : py_eq_str name "list_datasets" = false)
    by (apply py_eq_str_false, Hname; simpl; tauto).
  assert (H3 : py_eq_str name "list_tables" = false)
    by (apply py_eq_str_false, Hname; simpl; tauto).
  assert (H4 : py_eq_str name "describe_table" = false)
    by (apply py_eq_str_false, Hname; simpl; tauto).
  unfold call_tool, try_except. rewrite H1, H2, H3, H4. reflexivity.
Qed.

(** X3.  A [tools/call] whose tool name is none of the four (a string
    that names no tool, a value that is no string, or no name at all) is
    answered with the error -32603 whose message names the tool; no call
    is made on the client, and the fault is logged twice, by [call_tool]
    and by the dispatcher. *)
Theorem unknown_tool_never_reaches_client
    (d params : list (string * pyval)) (st : store W) :
  dict_get d "method" PNone = PStr "tools/call" ->
  dict_get d "params" (PDict []) = PDict params ->
  (forall n, In n tool_names -> dict_get params "name" PNone <> PStr n) ->
  let name := py_str rt (dict_get params "name" PNone) in
  exists st',
    handle_mcp_request rt cl (PDict d) st
    = (Ok (rpc_error (dict_get d "id" PNone) (-32603)
             ("Errore interno del server: Strumento non trovato: " ++ name)),
       st')
    /\ world st' = world st /\ calls st' = calls st
    /\ logs st'
       = (logs st ++
          [(INFO, "Ricevuta richiesta MCP: tools/call");
           (ERROR, ("Errore nell'esecuzione dello strumento " ++ name
                    ++ ": Strumento non trovato: " ++ name)%string);
           (ERROR, ("Errore nella gestione della richiesta: Strumento non trovato: "
                    ++ name)%string)])%list.
Proof.
  intros Hmethod Hparams Hname name.
  rewrite (handle_tools_call d params st Hmethod Hparams).
  rewrite (call_tool_unknown _ _ _ Hname).
  eexists. split; [reflexivity|]. repeat split.
  simpl. rewrite <- !app_assoc. reflexivity.
Qed.

(** X4.  A [tools/call] whose ['params'] are not a mapping faults at the
    lookup of the tool name: the answer is the error -32603 with the
    text of the [AttributeError], under the request's id, and no call is
    made on the client. *)
Theorem params_not_mapping_is_internal_error
    (d : list (string * pyval)) (params : pyval) (st : store W) :
  dict_get d "method" PNone = PStr "tools/call" ->
  dict_get d "params" (PDict []) = params ->
  (forall p, params <> PDict p) ->
  exists st',
    handle_mcp_request rt cl (PDict d) st
    = (Ok (rpc_error (dict_get d "id" PNone) (-32603)
             ("Errore interno del server: '" ++ type_name params
              ++ "' object has no attribute 'get'")),
       st')
    /\ world st' = world st /\ calls st' = calls st.
Proof.
  intros Hmethod Hparams Hnot.
  unfold handle_mcp_request, try_except, dispatch_request, bind, lift, log, ret.
  simpl py_get. cbv iota beta. rewrite Hmethod, Hparams. simpl.
  destruct params; try (eexists; split; [reflexivity|]; now split).
  now destruct (Hnot d0).
Qed.

(** X5.  A request that is not an object is not answered by
    [handle_mcp_request] at all: the lookup of the method faults, the
    handler logs the fault, and its own lookup of the id raises the same
    [AttributeError] to the caller.  Nothing else is touched. *)
Theorem non_object_request_raises (request : pyval) (st : store W) :
  (forall d, request <> PDict d) ->
  exists st',
    handle_mcp_request rt cl request st
    = (Raise (Exn "AttributeError"
                ("'" ++ type_name request ++ "' object has no attribute 'get'")),
       st')
    /\ world st' = world st /\ calls st' = calls st /\ sent st' = sent st
    /\ logs st'
       = (logs st ++
          [(ERROR, ("Errore nella gestione della richiesta: '" ++ type_name request
                    ++ "' object has no attribute 'get'")%string)])%list.
Proof.
  intro Hnot. rewrite (handle_mcp_request_not_object rt cl request st Hnot).
  eexists. split; [reflexivity|]. repeat split.
Qed.

End DispatchEdges.

Lemma only_tools_call_witness :
  calls (snd (handle_mcp_request Demo.rt Demo.client
                (PDict [("id", PInt 1); ("method", PStr "tools/drop")]) Demo.st0))
  = [].
Proof.
  destruct (only_tools_call_reaches_warehouse Demo.rt Demo.client
              [("id", PInt 1); ("method", PStr "tools/drop")] Demo.st0)
    as (response & st' & Hrun & _ & _ & Hcalls & _); [discriminate|].
  rewrite Hrun. exact Hcalls.
Defined.

Lemma initialize_witness :
  exists result,
    fst (handle_mcp_request Demo.rt Demo.client
           (PDict [("id", PInt 1); ("method", PStr "initialize");
                   ("params", PStr "ignored")]) Demo.st0)
    = Ok (rpc_result (PInt 1) result)
    /\ field result "protocolVersion" = Some (PStr "2024-11-05").
Proof.
  destruct (initialize_is_static Demo.rt Demo.client
              [("id", PInt 1); ("method", PStr "initialize");
               ("params", PStr "ignored")] Demo.st0 eq_refl)
    as (result & Hrun & Hversion & _).
  exists result. now split.
Defined.

Lemma unknown_tool_witness :
  fst (handle_mcp_request Demo.rt Demo.client
         (PDict [("id", PInt 9); ("method", PStr "tools/call")]) Demo.st0)
  = Ok (rpc_error (PInt 9) (-32603)
          "Errore interno del server: Strumento non trovato: None").
Proof.
  destruct (unknown_tool_never_reaches_client Demo.rt Demo.client
              [("id", PInt 9); ("method", PStr "tools/call")] [] Demo.st0
              eq_refl eq_refl)
    as (st' & Hrun & _).
  - intros n Hn. discriminate.
  - rewrite Hrun. reflexivity.
Defined.

Lemma params_list_witness :
  fst (handle_mcp_request Demo.rt Demo.client
         (PDict [("id", PInt 9); ("method", PStr "tools/call");
                 ("params", PList [PStr "query_bigquery"])]) Demo.st0)
  = Ok (rpc_error (PInt 9) (-32603)
          "Errore interno del server: 'list' object has no attribute 'get'").
Proof.
  destruct (params_not_mapping_is_internal_error Demo.rt Demo.client
              [("id", PInt 9); ("method", PStr "tools/call");
               ("params", PList [PStr "query_bigquery"])]
              (PList [PStr "query_bigquery"]) Demo.st0 eq_refl eq_refl)
    as (st' & Hrun & _).
  - intros p Hp. discriminate Hp.
  - rewrite Hrun. reflexivity.
Defined.

Lemma non_object_request_witness :
  fst (handle_mcp_request Demo.rt Demo.client (PInt 7) Demo.st0)
  = Raise (Exn "AttributeError" "'int' object has no attribute 'get'").
Proof.
  destruct (non_object_request_raises Demo.rt Demo.client (PInt 7) Demo.st0)
    as (st' & Hrun & _).
  - intros d Hd. discriminate Hd.
  - rewrite Hrun. reflexivity.
Defined.

(** ** The tools: what is asked of the client, and what is reported *)

Section ToolEdges.
Context {W : Type}.
Variable rt : Runtime.
Variable cl : Client W.

(** X6.  A ['query'] that is not a string is refused before the client
    is asked anything: the tool returns the error text of the
    [AttributeError] raised by [query.upper()], and the store is
    untouched. *)
Theorem non_string_query_never_runs
    (d : list (string * pyval)) (query : pyval) (st : store W) :
  dict_get d "query" (PStr "") = query ->
  (forall s, query <> PStr s) ->
  query_bigquery rt cl (PDict d) st
  = (Ok (text_content
           ("Errore nell'esecuzione della query: '" ++ type_name query
            ++ "' object has no attribute 'upper'")),
     st).
Proof.
  intros Hquery Hnot. rewrite query_bigquery_dict, Hquery.
  destruct query; try reflexivity. now destruct (Hnot s).
Qed.

(** The calls the loop of [list_datasets_impl] makes: one fetch per
    dataset, in order. *)
Lemma entries_for_calls (datasets : list DatasetListItem) st entries st' :
  entries_for cl datasets st entries st' ->
  calls st'
  = (calls st ++ map (fun dataset => CGetDataset (dli_dataset_id dataset)) datasets)%list.
Proof.
  induction 1 as [st | dataset rest st full w entries st' Hfetch Hrest IH
                     | dataset rest st e w entries st' Hfetch Hrest IH].
  - simpl. now rewrite app_nil_r.
  - rewrite IH. simpl. now rewrite <- app_assoc.
  - rewrite IH. simpl. now rewrite <- app_assoc.
Qed.

(** X7.  [list_datasets] asks the client once for the list and then once
    per dataset for its metadata, in the order listed, whether or not the
    fetches succeed; when the listing itself faults, that one call is all
    it makes. *)
Theorem list_datasets_call_pattern (st : store W) :
  let st' := snd (list_datasets_impl rt cl st) in
  match fst (cl_list_datasets cl (world st)) with
  | Ok datasets =>
      calls st'
      = (calls st ++ CListDatasets
           :: map (fun dataset => CGetDataset (dli_dataset_id dataset)) datasets)%list
  | Raise _ => calls st' = (calls st ++ [CListDatasets])%list
  end.
Proof.
  unfold list_datasets_impl, try_except, list_datasets_try, bind, call_client, ret.
  destruct (cl_list_datasets cl (world st)) as [[datasets|e] w]; simpl; [|reflexivity].
  destruct (for_each_dataset_record cl datasets (add_call CListDatasets w st))
    as (entries & st' & Hrun & Hrel & _).
  rewrite Hrun. simpl. rewrite (entries_for_calls _ _ _ _ Hrel).
  simpl. now rewrite <- app_assoc.
Qed.

(** X8.  When the dataset reference is built and the listing returns,
    [list_tables] reports the number of tables and one record per table,
    in order.  A record has a ['created'] or ['num_rows'] key exactly
    when the table has the value, and never holds [None] under either. *)
Theorem list_tables_one_record_each
    (d : list (string * pyval)) (ref : DatasetReference)
    (tables : list TableListItem) (w w' : W) (st : store W) :
  cl_dataset cl (dict_get d "dataset_id" PNone) (world st) = (Ok ref, w) ->
  cl_list_tables cl ref w = (Ok tables, w') ->
  list_tables rt cl (PDict d) st
  = (Ok (text_content
           ("Tabelle nel dataset " ++ py_str rt (dict_get d "dataset_id" PNone)
            ++ ": " ++ int_str (Z.of_nat (length tables)) ++ nl ++ nl
            ++ json_dumps rt (Some 2) (PList (map table_record tables)))),
     add_call (CListTables ref) w'
       (add_call (CDataset (dict_get d "dataset_id" PNone)) w st))
  /\ forall table,
       has_field (table_record table) "created" = is_some (tli_created table)
       /\ has_field (table_record table) "num_rows" = is_some (tli_num_rows table)
       /\ field (table_record table) "created" <> Some PNone
       /\ field (table_record table) "num_rows" <> Some PNone.
Proof.
  intros Href Hlist. split.
  - rewrite list_tables_dict.
    unfold try_except, list_tables_try, bind, call_client, ret.
    rewrite Href. simpl. rewrite Hlist. simpl. now rewrite length_map.
  - intro table. unfold table_record, has_field, field.
    destruct (tli_created table), (tli_num_rows table); simpl;
      repeat split; discriminate.
Qed.

(** X9.  When the dataset reference cannot be built (the client refuses
    the ['dataset_id'], as it does for [None]), [list_tables] and
    [describe_table] stop there: the fault becomes the tool's error text
    and no listing or table fetch is asked of the client. *)
Theorem bad_dataset_reference_stops_the_tool
    (d : list (string * pyval)) (e : exn) (w : W) (st : store W) :
  cl_dataset cl (dict_get d "dataset_id" PNone) (world st) = (Raise e, w) ->
  list_tables rt cl (PDict d) st
  = (Ok (text_content ("Errore nel recuperare le tabelle: " ++ exn_str e)),
     add_call (CDataset (dict_get d "dataset_id" PNone)) w st)
  /\ describe_table rt cl (PDict d) st
     = (Ok (text_content ("Errore nel descrivere la tabella: " ++ exn_str e)),
        add_call (CDataset (dict_get d "dataset_id" PNone)) w st).
Proof.
  intro Href. split.
  - rewrite list_tables_dict.
    unfold try_except, list_tables_try, bind, call_client, ret.
    now rewrite Href.
  - rewrite describe_table_dict.
    unfold try_except, describe_table_try, bind, call_client, ret.
    now rewrite Href.
Qed.

(** X10.  When the three steps of [describe_table] succeed (reference to
    the dataset, reference to the table, fetch), the tool makes exactly
    those three calls and reports the table's record, whose schema has
    one entry per column, in order. *)
Theorem describe_table_reports_table
    (d : list (string * pyval)) (ref : DatasetReference) (tref : TableReference)
    (table : Table) (w1 w2 w3 : W) (st : store W) :
  cl_dataset cl (dict_get d "dataset_id" PNone) (world st) = (Ok ref, w1) ->
  cl_table cl ref (dict_get d "table_id" PNone) w1 = (Ok tref, w2) ->
  cl_get_table cl tref w2 = (Ok table, w3) ->
  exists st',
    describe_table rt cl (PDict d) st
    = (Ok (text_content
             ("Descrizione tabella " ++ py_str rt (dict_get d "dataset_id" PNone)
              ++ "." ++ py_str rt (dict_get d "table_id" PNone) ++ ":" ++ nl ++ nl
              ++ json_dumps rt (Some 2) (table_info_record table))),
       st')
    /\ world st' = w3
    /\ calls st'
       = (calls st ++
          [CDataset (dict_get d "dataset_id" PNone);
           CTable ref (dict_get d "table_id" PNone);
           CGetTable tref])%list
    /\ field (table_info_record table) "schema"
       = Some (PList (map field_record (tb_schema table)))
    /\ map (fun column => field column "name") (map field_record (tb_schema table))
       = map (fun column => Some (PStr (sf_name column))) (tb_schema table).
Proof.
  intros Href Htref Hfetch. eexists. split.
  { rewrite describe_table_dict.
    unfold try_except, describe_table_try, bind, call_client, ret.
    rewrite Href. simpl. rewrite Htref. simpl. rewrite Hfetch. reflexivity. }
  split; [reflexivity|].
  split; [simpl; now rewrite <- !app_assoc|].
  split; [reflexivity|].
  rewrite map_map. reflexivity.
Qed.

Lemma or_default_not_empty (x : option string) (default : string) :
  default <> "" -> or_default x default <> "".
Proof.
  intro Hdefault. unfold or_default.
  destruct x as [s|]; [|exact Hdefault].
  destruct (String.eqb s "") eqn:E; [exact Hdefault|].
  now apply String.eqb_neq.
Qed.

(** X11.  The ['description'] of a dataset, of a table and of a column is
    always reported as a string that is not empty: the text of the
    warehouse when it has one that is not empty, and
    [Nessuna descrizione] when the description is missing or empty. *)
Theorem descriptions_are_never_empty :
  (forall dataset full,
     exists s, field (extended_record dataset full) "description" = Some (PStr s)
               /\ s <> ""
               /\ (forall text, ds_description full = Some text -> text <> "" -> s = text)
               /\ (ds_description full = None \/ ds_description full = Some "" ->
                   s = "Nessuna descrizione"))
  /\ (forall table,
        exists s, field (table_info_record table) "description" = Some (PStr s)
                  /\ s <> ""
                  /\ (forall text, tb_description table = Some text -> text <> "" ->
                      s = text)
                  /\ (tb_description table = None \/ tb_description table = Some "" ->
                      s = "Nessuna descrizione"))
  /\ (forall column,
        exists s, field (field_record column) "description" = Some (PStr s)
                  /\ s <> ""
                  /\ (forall text, sf_description column = Some text -> text <> "" ->
                      s = text)
                  /\ (sf_description column = None \/ sf_description column = Some "" ->
                      s = "Nessuna descrizione")).
Proof.
  assert (Hkeep : forall x text default,
            x = Some text -> text <> "" -> or_default x default = text).
  { intros x text default -> Hne. unfold or_default.
    apply String.eqb_neq in Hne. now rewrite Hne. }
  assert (Hfall : forall x default,
            x = None \/ x = Some "" -> or_default x default = default).
  { intros x default [-> | ->]; reflexivity. }
  repeat split; intros; eexists; (split; [reflexivity|]);
    (split; [apply or_default_not_empty; discriminate|]);
    (split; [intros; now apply Hkeep | intros; now apply Hfall]).
Qed.

End ToolEdges.

Lemma non_string_query_witness :
  query_bigquery Demo.rt Demo.client (PDict [("query", PInt 5)]) Demo.st0
  = (Ok (text_content
           "Errore nell'esecuzione della query: 'int' object has no attribute 'upper'"),
     Demo.st0).
Proof.
  apply (non_string_query_never_runs Demo.rt Demo.client
           [("query", PInt 5)] (PInt 5) Demo.st0 eq_refl).
  intros s Hs. discriminate Hs.
Defined.

Lemma list_tables_witness :
  exists text st',
    list_tables Demo.rt Demo.client (PDict [("dataset_id", PStr "sales")]) Demo.st0
    = (Ok (text_content text), st')
    /\ String.prefix "Tabelle nel dataset sales: 1" text = true.
Proof.
  destruct (list_tables_one_record_each Demo.rt Demo.client
              [("dataset_id", PStr "sales")]
              {| dr_project := "demo"; dr_dataset_id := "sales" |}
              [ {| tli_table_id := "orders"; tli_table_type := Some "TABLE";
                   tli_project := "demo"; tli_dataset_id := "sales";
                   tli_created := None; tli_num_rows := None |} ]
              0 1 Demo.st0 eq_refl eq_refl)
    as (Hrun & _).
  eexists. eexists. split; [exact Hrun|]. reflexivity.
Defined.

Lemma bad_dataset_reference_witness :
  fst (list_tables Demo.rt Demo.client (PDict []) Demo.st0)
  = Ok (text_content
          "Errore nel recuperare le tabelle: Pass a string for dataset_id")
  /\ calls (snd (describe_table Demo.rt Demo.client (PDict []) Demo.st0))
     = [CDataset PNone].
Proof.
  destruct (bad_dataset_reference_stops_the_tool Demo.rt Demo.client []
              (Exn "ValueError" "Pass a string for dataset_id") 0 Demo.st0 eq_refl)
    as (Htables & Hdescribe).
  rewrite Htables, Hdescribe. split; reflexivity.
Defined.

Lemma describe_table_witness :
  calls (snd (describe_table Demo.rt Demo.client
                (PDict [("dataset_id", PStr "sales"); ("table_id", PStr "orders")])
                Demo.st0))
  = [CDataset (PStr "sales");
     CTable {| dr_project := "demo"; dr_dataset_id := "sales" |} (PStr "orders");
     CGetTable {| tr_dataset := {| dr_project := "demo"; dr_dataset_id := "sales" |};
                  tr_table_id := PStr "orders" |}].
Proof.
  destruct (describe_table_reports_table Demo.rt Demo.client
              [("dataset_id", PStr "sales"); ("table_id", PStr "orders")]
              {| dr_project := "demo"; dr_dataset_id := "sales" |}
              {| tr_dataset := {| dr_project := "demo"; dr_dataset_id := "sales" |};
                 tr_table_id := PStr "orders" |}
              Demo.orders 0 0 1 Demo.st0 eq_refl eq_refl eq_refl)
    as (st' & Hrun & _ & Hcalls & _).
  rewrite Hrun. exact Hcalls.
Defined.

(** ** What the tools leave out of the log *)

Section QuietFacts.
Context {W : Type}.

Lemma quiet_ret {A} (a : A) : quiet (@ret W A a).
Proof. intro st. reflexivity. Qed.

Lemma quiet_lift {A} (o : outcome A) : quiet (@lift W A o).
Proof. intro st. reflexivity. Qed.

Lemma quiet_call_client {A} (c : call) (op : W -> outcome A * W) :
  quiet (call_client c op).
Proof. intro st. unfold call_client. now destruct (op (world st)). Qed.

Lemma quiet_bind {A B} (m : M W A) (k : A -> M W B) :
  quiet m -> (forall a, quiet (k a)) -> quiet (bind m k).
Proof.
  intros Hm Hk st. unfold bind. specialize (Hm st).
  destruct (m st) as [[a|e] st1]; simpl in Hm.
  - now rewrite Hk.
  - exact Hm.
Qed.

Lemma quiet_try_except {A} (m : M W A) (h : exn -> M W A) :
  quiet m -> (forall e, quiet (h e)) -> quiet (try_except m h).
Proof.
  intros Hm Hh st. unfold try_except. specialize (Hm st).
  destruct (m st) as [[a|e] st1]; simpl in Hm.
  - exact Hm.
  - now rewrite Hh.
Qed.

Lemma quiet_for_each {A B} (f : A -> M W B) (xs : list A) :
  (forall x, quiet (f x)) -> quiet (for_each f xs).
Proof.
  intro Hf. induction xs as [|x xs IH]; simpl.
  - apply quiet_ret.
  - apply quiet_bind; [apply Hf|]. intro y.
    apply quiet_bind; [exact IH|]. intro ys. apply quiet_ret.
Qed.

End QuietFacts.

Create HintDb quiet.
#[export] Hint Resolve quiet_ret quiet_lift quiet_call_client quiet_for_each : quiet.

Ltac quiet_step :=
  first [ apply quiet_bind; [| intro ]
        | apply quiet_try_except; [| intro ]
        | progress cbv zeta
        | solve [ auto with quiet ] ].

Section ToolLogs.
Context {W : Type}.
Variable rt : Runtime.
Variable cl : Client W.

Lemma quiet_query_bigquery (args : pyval) : quiet (query_bigquery rt cl args).
Proof. unfold query_bigquery, query_bigquery_try. repeat quiet_step. Qed.

Lemma quiet_list_datasets_impl : quiet (list_datasets_impl rt cl).
Proof.
  unfold list_datasets_impl, list_datasets_try. repeat quiet_step.
  apply quiet_for_each. intro dataset. unfold dataset_record. repeat quiet_step.
Qed.

Lemma quiet_list_tables (args : pyval) : quiet (list_tables rt cl args).
Proof. unfold list_tables, list_tables_try. repeat quiet_step. Qed.

Lemma quiet_describe_table (args : pyval) : quiet (describe_table rt cl args).
Proof. unfold describe_table, describe_table_try. repeat quiet_step. Qed.

(** X12.  A fault the warehouse raises inside a tool leaves no trace in
    the log: on a mapping of arguments, a call of any of the four tools
    through [call_tool] hands nothing to the logger, whether the tool
    reports data or an error text. *)
Theorem tool_faults_are_not_logged
    (name : string) (d : list (string * pyval)) (st : store W) :
  In name tool_names ->
  logs (snd (call_tool rt cl (PStr name) (PDict d) st)) = logs st.
Proof.
  intro Hin. repeat (destruct Hin as [<- | Hin]); [..| destruct Hin].
  - rewrite call_tool_query_bigquery. apply quiet_query_bigquery.
  - rewrite call_tool_list_datasets. apply quiet_list_datasets_impl.
  - rewrite call_tool_list_tables. apply quiet_list_tables.
  - rewrite call_tool_describe_table. apply quiet_describe_table.
Qed.

End ToolLogs.

Lemma tool_faults_not_logged_witness :
  let st' := snd (call_tool Demo.rt Demo.client (PStr "query_bigquery")
                    (PDict [("query", PStr "SELECT 1 FROM missing")]) Demo.st0) in
  logs st' = [] /\ world st' = 1.
Proof.
  split.
  - apply (tool_faults_are_not_logged Demo.rt Demo.client "query_bigquery"
             [("query", PStr "SELECT 1 FROM missing")] Demo.st0).
    simpl. tauto.
  - reflexivity.
Defined.

(** ** The event stream: what a frame carries *)

(** Induction on a value, with the items of a list and of a dict. *)
Section PyvalInduction.
Variable P : pyval -> Prop.
Hypothesis HNone : P PNone.
Hypothesis HBool : forall b, P (PBool b).
Hypothesis HInt : forall z, P (PInt z).
Hypothesis HFloat : forall f, P (PFloat f).
Hypothesis HStr : forall s, P (PStr s).
Hypothesis HList : forall l, Forall P l -> P (PList l).
Hypothesis HDict : forall d, Forall (fun kv => P (snd kv)) d -> P (PDict d).


End PyvalInduction.





Section StreamEdges.
Context {W : Type}.
Variable rt : Runtime.
Variable cl : Client W.


(** X13.  When the read of the body returns the JSON text of an
    object, the stream is a plain transport of the dispatcher: its one
    frame is the JSON text of the response of [handle_mcp_request], and
    the store is the one the dispatcher left, with that frame added.  The
    stream itself logs nothing and asks nothing of the client. *)
Theorem frame_carries_dispatcher_response
    (request : Request) (body text : string) (d : list (string * pyval))
    (st : store W) :
  req_body request = Resumed (Ok body) ->
  body <> "" ->
  bytes_decode rt body = Ok text ->
  json_loads rt text = Ok (PDict d) ->
  exists response st1,
    handle_mcp_request rt cl (PDict d) st = (Ok response, st1)
    /\ content (sse_endpoint rt cl request) st
       = (Resumed (Ok tt), add_frame (sse_frame (json_dumps rt None response)) st1).
Proof.
  intros Hread Hbody Hdecode Hloads.
  destruct (handle_mcp_request_object rt cl d st) as (response & st1 & Hrun).
  exists response, st1. split; [exact Hrun|].
  unfold sse_endpoint, content.
  rewrite (event_stream_resumed rt cl request (Ok body) st Hread).
  apply String.eqb_neq in Hbody. now rewrite Hbody, Hdecode, Hloads, Hrun.
Qed.



End StreamEdges.


Lemma frame_carries_response_witness :
  let request := PDict [("id", PInt 4); ("method", PStr "ping")] in
  sent (snd (content (sse_endpoint (Wire.runtime_for request) Demo.client
                        (Wire.delivered (Wire.text_of request))) Demo.st0))
  = [sse_frame
       (json_dumps Demo.rt None
          (rpc_error (PInt 4) (-32601) "Metodo non trovato: ping"))].
Proof.
  cbv zeta.
  destruct (frame_carries_dispatcher_response
              (Wire.runtime_for (PDict [("id", PInt 4); ("method", PStr "ping")]))
              Demo.client
              (Wire.delivered
                 (Wire.text_of (PDict [("id", PInt 4); ("method", PStr "ping")])))
              (Wire.text_of (PDict [("id", PInt 4); ("method", PStr "ping")]))
              (Wire.text_of (PDict [("id", PInt 4); ("method", PStr "ping")]))
              [("id", PInt 4); ("method", PStr "ping")] Demo.st0)
    as (response & st1 & Hrun & Hstream);
    [reflexivity | vm_compute; discriminate | reflexivity
     | vm_compute; reflexivity |].
  rewrite Hstream. vm_compute in Hrun. injection Hrun as <- <-. reflexivity.
Defined.


(** The line break of the method comes back escaped. *)
Example line_break_is_escaped :
  sent (snd (content (sse_endpoint Demo2.two_line_runtime Demo.client
                        (Wire.delivered Demo2.two_line_text))
               Demo.st0))
  = ["data: {" ++ Demo.dq ++ "jsonrpc" ++ Demo.dq ++ ": " ++ Demo.dq ++ "2.0" ++ Demo.dq
     ++ ", " ++ Demo.dq ++ "id" ++ Demo.dq ++ ": null, "
     ++ Demo.dq ++ "error" ++ Demo.dq ++ ": {" ++ Demo.dq ++ "code" ++ Demo.dq
     ++ ": -32601, " ++ Demo.dq ++ "message" ++ Demo.dq ++ ": " ++ Demo.dq
     ++ "Metodo non trovato: a" ++ Demo2.backslash ++ "nb"
     ++ Demo.dq ++ "}}" ++ nl ++ nl].
Proof. vm_compute. reflexivity. Qed.

(** ** Start-up *)

Lemma env_lookup_setenv (env : list (string * string)) (key value : string) :
  env_lookup (setenv env key value) key = Some value.
Proof.
  induction env as [|[k v] env IH]; simpl.
  - now rewrite String.eqb_refl.
  - destruct (String.eqb k key) eqn:E; simpl; now rewrite E.
Qed.

Lemma env_lookup_setenv_other (env : list (string * string)) (key value other : string) :
  other <> key ->
  env_lookup (setenv env key value) other = env_lookup env other.
Proof.
  intro Hne. induction env as [|[k v] env IH]; simpl.
  - destruct (String.eqb key other) eqn:E; [|reflexivity].
    apply String.eqb_eq in E. congruence.
  - destruct (String.eqb k key) eqn:E; simpl; [|now rewrite IH].
    apply String.eqb_eq in E. subst k.
    destruct (String.eqb key other) eqn:E'; [|reflexivity].
    apply String.eqb_eq in E'. congruence.
Qed.

Section StartupFacts.
Context {F C : Type}.
Variable platform : Platform F C.

(** X15.  When [GOOGLE_APPLICATION_CREDENTIALS_JSON] is not set, or set
    to the empty string, start-up creates no file and leaves the
    environment alone: the client is built on the process as it was. *)
Theorem startup_without_inline_credentials
    (project_id : string) (st : store (process F)) :
  env_lookup (environ (world st)) "GOOGLE_APPLICATION_CREDENTIALS_JSON" = None
  \/ env_lookup (environ (world st)) "GOOGLE_APPLICATION_CREDENTIALS_JSON" = Some "" ->
  _initialize_client platform project_id st = client_built platform project_id st
  /\ world (snd (_initialize_client platform project_id st)) = world st.
Proof.
  intro Hcreds.
  assert (Hrun : _initialize_client platform project_id st = client_built platform project_id st).
  { unfold _initialize_client, client_built, try_except, bind, read_environ,
      write_credentials, log, ret, raise.
    destruct Hcreds as [-> | ->]; simpl;
      destruct (bigquery_Client platform project_id (world st)); reflexivity. }
  split; [exact Hrun|]. rewrite Hrun. unfold client_built.
  destruct (bigquery_Client platform project_id (world st)); reflexivity.
Qed.

(** X16.  When [GOOGLE_APPLICATION_CREDENTIALS_JSON] holds a text and the
    temporary file is created, written and closed, the client is built
    on a process in which the file has the text written to it and
    [GOOGLE_APPLICATION_CREDENTIALS] names the file; no other variable
    of the environment is changed. *)
Theorem inline_credentials_reach_the_client
    (project_id text name : string) (f1 f2 f3 : F) (st : store (process F)) :
  env_lookup (environ (world st)) "GOOGLE_APPLICATION_CREDENTIALS_JSON" = Some text ->
  text <> "" ->
  named_temporary_file platform ".json" (fs (world st)) = (Ok name, f1) ->
  file_write platform name text f1 = (Ok tt, f2) ->
  file_close platform name f2 = (Ok tt, f3) ->
  let ready :=
    {| world := {| environ := setenv (environ (world st))
                                "GOOGLE_APPLICATION_CREDENTIALS" name;
                   fs := f3 |};
       calls := calls st; logs := logs st; sent := sent st |} in
  _initialize_client platform project_id st = client_built platform project_id ready
  /\ env_lookup (environ (world ready)) "GOOGLE_APPLICATION_CREDENTIALS" = Some name
  /\ forall other, other <> "GOOGLE_APPLICATION_CREDENTIALS" ->
       env_lookup (environ (world ready)) other
       = env_lookup (environ (world st)) other.
Proof.
  intros Hcreds Htext Hcreate Hwrite Hclose ready.
  split; [|split].
  - apply String.eqb_neq in Htext.
    unfold _initialize_client, client_built, try_except, bind, read_environ,
      write_credentials, with_named_temporary_file, on_fs, set_environ, log, ret, raise.
    cbv beta. rewrite Hcreds, Htext. cbv beta iota delta [negb bind on_fs].
    rewrite Hcreate. simpl. rewrite Hwrite. simpl. rewrite Hclose.
    subst ready. simpl.
    destruct (bigquery_Client platform project_id _); reflexivity.
  - apply env_lookup_setenv.
  - intros other Hother. now apply env_lookup_setenv_other.
Qed.

Lemma quiet_on_fs {A} (op : F -> outcome A * F) : quiet (on_fs op).
Proof. intro st. unfold on_fs. now destruct (op (fs (world st))). Qed.

Lemma quiet_write_credentials (creds_json : option string) :
  quiet (write_credentials platform creds_json).
Proof.
  unfold write_credentials. destruct creds_json as [text|]; [|apply quiet_ret].
  destruct (negb (String.eqb text "")); [|apply quiet_ret].
  unfold with_named_temporary_file.
  apply quiet_bind; [apply quiet_on_fs|]. intros name st.
  assert (Hbody : quiet (bind (on_fs (file_write platform name text))
                           (fun _ => set_environ "GOOGLE_APPLICATION_CREDENTIALS" name))).
  { apply quiet_bind; [apply quiet_on_fs|]. intros _ st0. reflexivity. }
  specialize (Hbody st).
  destruct (bind (on_fs (file_write platform name text)) _ st) as [[u|e] st1];
    simpl in Hbody;
    pose proof (quiet_on_fs (file_close platform name) st1) as Hclose;
    destruct (on_fs (file_close platform name) st1) as [[u'|e'] st2];
    simpl in Hclose; simpl; congruence.
Qed.

(** X17.  A fault of any step of start-up is raised again to the caller,
    never swallowed: of the creation of the temporary file, of the
    write, of the close (whatever the write did) and of the construction
    of the client; start-up returns a client only when the constructor
    returned it.  Every run hands the logger exactly one record: the
    INFO record naming the project when the client is returned, and the
    ERROR record with the fault's text when start-up raises. *)
Theorem startup_logs_its_outcome (project_id : string) (st : store (process F)) :
  let creds := env_lookup (environ (world st)) "GOOGLE_APPLICATION_CREDENTIALS_JSON" in
  let run := _initialize_client platform project_id st in
  match run with
  | (Ok _, st') =>
      logs st'
      = (logs st ++
         [(INFO, ("BigQuery client inizializzato per il progetto: "
                  ++ project_id)%string)])%list
  | (Raise e, st') =>
      logs st'
      = (logs st ++
         [(ERROR, ("Errore nell'inizializzazione del client BigQuery: "
                   ++ exn_str e)%string)])%list
  end
  /\ (forall text,
        creds = Some text -> text <> "" ->
        (forall e f1,
           named_temporary_file platform ".json" (fs (world st)) = (Raise e, f1) ->
           fst run = Raise e)
        /\ (forall name f1 e f2 f3,
              named_temporary_file platform ".json" (fs (world st)) = (Ok name, f1) ->
              file_write platform name text f1 = (Raise e, f2) ->
              file_close platform name f2 = (Ok tt, f3) ->
              fst run = Raise e)
        /\ (forall name f1 written f2 e f3,
              named_temporary_file platform ".json" (fs (world st)) = (Ok name, f1) ->
              file_write platform name text f1 = (written, f2) ->
              file_close platform name f2 = (Raise e, f3) ->
              fst run = Raise e))
  /\ (forall st1,
        write_credentials platform creds st = (Ok tt, st1) ->
        run = client_built platform project_id st1
        /\ (forall e, bigquery_Client platform project_id (world st1) = Raise e ->
            fst run = Raise e)
        /\ (forall client, fst run = Ok client ->
            bigquery_Client platform project_id (world st1) = Ok client)).
Proof.
  intros creds run. split; [|split].
  - subst run creds.
    unfold _initialize_client, try_except, bind at 1, read_environ.
    unfold bind at 1.
    pose proof (quiet_write_credentials
                  (env_lookup (environ (world st)) "GOOGLE_APPLICATION_CREDENTIALS_JSON")
                  st) as Hquiet.
    destruct (write_credentials platform _ st) as [[u|e] st1]; simpl in Hquiet.
    + unfold bind, log, ret.
      destruct (bigquery_Client platform project_id (world st1)); simpl;
        now rewrite Hquiet.
    + simpl. now rewrite Hquiet.
  - intros text Hcreds Htext. apply String.eqb_neq in Htext.
    subst run creds.
    split; [|split].
    + intros e f1 Hcreate.
      unfold _initialize_client, try_except, bind, read_environ,
        write_credentials, with_named_temporary_file, on_fs, set_environ,
        log, ret, raise.
      cbv beta. rewrite Hcreds, Htext. cbv beta iota delta [negb bind on_fs].
      rewrite Hcreate. reflexivity.
    + intros name f1 e f2 f3 Hcreate Hwrite Hclose.
      unfold _initialize_client, try_except, bind, read_environ,
        write_credentials, with_named_temporary_file, on_fs, set_environ,
        log, ret, raise.
      cbv beta. rewrite Hcreds, Htext. cbv beta iota delta [negb bind on_fs].
      rewrite Hcreate. simpl. rewrite Hwrite. simpl. rewrite Hclose. reflexivity.
    + intros name f1 written f2 e f3 Hcreate Hwrite Hclose.
      unfold _initialize_client, try_except, bind, read_environ,
        write_credentials, with_named_temporary_file, on_fs, set_environ,
        log, ret, raise.
      cbv beta. rewrite Hcreds, Htext. cbv beta iota delta [negb bind on_fs].
      rewrite Hcreate. simpl. rewrite Hwrite.
      destruct written as [[]|e0]; simpl; rewrite Hclose; reflexivity.
  - intros st1 Hcreds.
    assert (Hrun : run = client_built platform project_id st1).
    { subst run creds.
      unfold _initialize_client, client_built, try_except, bind at 1, read_environ.
      unfold bind at 1. rewrite Hcreds.
      unfold bind, log, ret, raise.
      destruct (bigquery_Client platform project_id (world st1)); reflexivity. }
    split; [exact Hrun|]. rewrite Hrun. unfold client_built. split.
    + intros e He. now rewrite He.
    + intros client. destruct (bigquery_Client platform project_id (world st1));
        simpl; congruence.
Qed.

(** X18.  A server that start-up returns has a client, and its project
    id is the value of [GOOGLE_CLOUD_PROJECT] whenever the variable is
    set, the empty string included, and [big-query-instilla] only when it
    is not set; [health_check] and [root] report that project id. *)
Theorem server_reports_its_project
    (server : BigQueryMCPServer C) (st st' : store (process F)) :
  new_server platform st = (Ok server, st') ->
  srv_client server <> None
  /\ (forall value,
        env_lookup (environ (world st)) "GOOGLE_CLOUD_PROJECT" = Some value ->
        srv_project_id server = value)
  /\ (env_lookup (environ (world st)) "GOOGLE_CLOUD_PROJECT" = None ->
      srv_project_id server = "big-query-instilla")
  /\ field (health_check server) "project" = Some (PStr (srv_project_id server))
  /\ field (root server) "project" = Some (PStr (srv_project_id server)).
Proof.
  unfold new_server, bind at 1, read_environ. unfold bind, ret.
  destruct (_initialize_client platform _ st) as [[client|e] st1]; [|discriminate].
  intro H. injection H as <- _. simpl. unfold getenv.
  split; [discriminate|]. split; [|split; [|split; reflexivity]].
  - intros value ->. reflexivity.
  - intros ->. reflexivity.
Qed.

End StartupFacts.

Lemma startup_without_credentials_witness :
  fst (_initialize_client Demo2.platform "demo"
         (Demo2.boot [("GOOGLE_APPLICATION_CREDENTIALS_JSON", "")]))
  = Raise (Exn "DefaultCredentialsError" "Your default credentials were not found.")
  /\ fs (world (snd (_initialize_client Demo2.platform "demo"
                       (Demo2.boot [("GOOGLE_APPLICATION_CREDENTIALS_JSON", "")]))))
     = [].
Proof.
  destruct (startup_without_inline_credentials Demo2.platform "demo"
              (Demo2.boot [("GOOGLE_APPLICATION_CREDENTIALS_JSON", "")]))
    as (Hrun & Hworld).
  - right. reflexivity.
  - rewrite Hworld. rewrite Hrun. split; reflexivity.
Defined.

Lemma inline_credentials_witness :
  let st' := snd (_initialize_client Demo2.platform "demo"
                    (Demo2.boot [("GOOGLE_APPLICATION_CREDENTIALS_JSON", "{key}")])) in
  fs (world st') = [("/tmp/tmp0.json", "{key}")]
  /\ env_lookup (environ (world st')) "GOOGLE_APPLICATION_CREDENTIALS"
     = Some "/tmp/tmp0.json".
Proof.
  destruct (inline_credentials_reach_the_client Demo2.platform "demo" "{key}"
              "/tmp/tmp0.json"
              [("/tmp/tmp0.json", "")] [("/tmp/tmp0.json", "{key}")]
              [("/tmp/tmp0.json", "{key}")]
              (Demo2.boot [("GOOGLE_APPLICATION_CREDENTIALS_JSON", "{key}")])
              eq_refl)
    as (Hrun & _); [discriminate | reflexivity | reflexivity | reflexivity |].
  cbv zeta. rewrite Hrun. split; reflexivity.
Defined.

Lemma server_reports_project_witness :
  exists server,
    fst (new_server Demo2.platform
           (Demo2.boot [("GOOGLE_CLOUD_PROJECT", "");
                        ("GOOGLE_APPLICATION_CREDENTIALS_JSON", "{key}")]))
    = Ok server
    /\ field (health_check server) "project" = Some (PStr "").
Proof.
  eexists. split; [vm_compute; reflexivity|].
  destruct (server_reports_its_project Demo2.platform
              {| srv_project_id := ""; srv_client := Some "" |}
              (Demo2.boot [("GOOGLE_CLOUD_PROJECT", "");
                           ("GOOGLE_APPLICATION_CREDENTIALS_JSON", "{key}")])
              (snd (new_server Demo2.platform
                      (Demo2.boot [("GOOGLE_CLOUD_PROJECT", "");
                                   ("GOOGLE_APPLICATION_CREDENTIALS_JSON", "{key}")]))))
    as (_ & _ & _ & Hhealth & _); [vm_compute; reflexivity|].
  exact Hhealth.
Defined.

(** ** [query_bigquery]: what is reported *)

Section QueryReport.
Context {W : Type}.
Variable rt : Runtime.
Variable cl : Client W.

(** X19.  For a string query, the answer of the client decides the text:
    rows are reported with their number and their JSON text, in the
    order received, and a fault with the error prefix and its
    description.  Either way the warehouse is left as that one query
    left it. *)
Theorem query_reports_rows_or_fault
    (d : list (string * pyval)) (q : string) (st : store W) :
  dict_get d "query" (PStr "") = PStr q ->
  let sql := final_query rt q (dict_get d "limit" (PInt 100)) in
  query_bigquery rt cl (PDict d) st =
  match cl_query cl sql (world st) with
  | (Ok rows, w) =>
      (Ok (text_content
             ("Query eseguita con successo. Righe restituite: "
              ++ int_str (Z.of_nat (length rows)) ++ nl ++ nl ++ "Risultati:" ++ nl
              ++ json_dumps rt (Some 2) (PList (map PDict rows)))),
       add_call (CQuery sql) w st)
  | (Raise e, w) =>
      (Ok (text_content ("Errore nell'esecuzione della query: " ++ exn_str e)),
       add_call (CQuery sql) w st)
  end.
Proof.
  intros Hq sql. subst sql. rewrite query_bigquery_dict, Hq.
  unfold try_except, query_bigquery_try, final_query, bind, lift, call_client, ret.
  simpl py_upper. cbv beta iota. simpl (py_str rt (PStr q)).
  destruct (negb (str_contains "LIMIT" (str_upper rt q))
            && py_truthy (dict_get d "limit" (PInt 100)));
    match goal with
    | |- context [cl_query cl ?x ?w] => destruct (cl_query cl x w) as [[rows|e] w1]
    end; reflexivity.
Qed.

End QueryReport.

Lemma query_reports_witness :
  fst (query_bigquery Demo.rt Demo.client
         (PDict [("query", PStr "SELECT 1 FROM missing")]) Demo.st0)
  = Ok (text_content
          "Errore nell'esecuzione della query: 404 Not found: Table demo:sales.missing").
Proof.
  rewrite (query_reports_rows_or_fault Demo.rt Demo.client
             [("query", PStr "SELECT 1 FROM missing")] "SELECT 1 FROM missing"
             Demo.st0 eq_refl).
  reflexivity.
Defined.

(** A read of the body that is abandoned ends the stream where it waits:
    no frame, no log record, nothing asked of the client. *)
Lemma abandoned_read_sends_nothing {W} (rt : Runtime) (cl : Client W)
    (request : Request) (st : store W) :
  req_body request = Abandoned ->
  content (sse_endpoint rt cl request) st = (Abandoned, st).
Proof.
  intro Hread. unfold sse_endpoint, content, event_stream. now rewrite Hread.
Qed.
